(** * dpo_train.py: DPO training orchestration and LoRA merge

    A shallow embedding of [src/dpo_train.py].  The script is a sequence of
    calls into external libraries (datasets, transformers, trl, peft, torch,
    pandas) glued together by a little string arithmetic on paths.

    - Part 1 embeds the Python string and list operations the script uses
      ([str.split], [str.join], list slicing, f-string concatenation).
    - Part 2 embeds the library interface as a type of calls, and the three
      functions and the [__main__] block as programs over these calls.
    - Part 3 gives a reference semantics of the storage-related library calls
      (file system, object heap, random generators).
    - Part 4 names what is observed of a run, and sets up a small concrete
      installation on which the script can be run.
    - Part 5 holds the properties: those of the paths and of the order of
      calls hold whatever the libraries do, those of samples and weights
      hold under the reference semantics.
    - Part 6 holds further properties of the same functions: the path
      arithmetic, the map function, the order and the data flow of calls,
      and what the functions leave untouched. *)

From Stdlib Require Import QArith Ascii.
From stdpp Require Import gmap strings list fin_maps.

Local Open Scope Z_scope.

(* ===================================================================== *)
(** * Part 1: Python strings and lists *)
(* ===================================================================== *)

Module Py.

(** [s.split(sep)] for a one-character separator (the script only ever
    splits on ['/']).  The result is never empty: a string without the
    separator yields the one-element list holding the string itself. *)
Fixpoint str_split (sep : ascii) (s : string) : list string :=
  match s with
  | EmptyString => [EmptyString]
  | String c s' =>
      if decide (c = sep) then EmptyString :: str_split sep s'
      else match str_split sep s' with
           | [] => [String c EmptyString]
           | h :: t => String c h :: t
           end
  end.

(** [sep.join(l)]. *)
Fixpoint str_join (sep : string) (l : list string) : string :=
  match l with
  | [] => EmptyString
  | [x] => x
  | x :: t => x +:+ sep +:+ str_join sep t
  end.

(** An index of a slice, clipped the way Python does it: a negative bound
    counts from the end, and everything is clamped to [0, len]. *)
Definition slice_index (len i : Z) : nat :=
  Z.to_nat (Z.max 0 (Z.min len (if i <? 0 then i + len else i))).

(** [l[lo:hi]]. *)
Definition slice {A} (lo hi : Z) (l : list A) : list A :=
  let n := Z.of_nat (length l) in
  drop (slice_index n lo) (take (slice_index n hi) l).

(** [s.endswith(suffix)]. *)
Definition str_endswith (s suffix : string) : bool :=
  let n := String.length s in
  let m := String.length suffix in
  bool_decide (m <= n)%nat
  && bool_decide (String.substring (n - m) m s = suffix).

(** [c in s] for a character [c]. *)
Fixpoint str_contains (c : ascii) (s : string) : bool :=
  match s with
  | EmptyString => false
  | String c' s' => bool_decide (c' = c) || str_contains c s'
  end.

End Py.

(** The path expressions of the script. *)

Definition slash : ascii := "/"%char.

(** ['/'.join(p.split('/')[0: -1])], the expression shared by lines 121 and
    149. *)
Definition drop_last_segment (p : string) : string :=
  Py.str_join "/" (Py.slice 0 (-1) (Py.str_split slash p)).

(* ===================================================================== *)
(** * Part 2: the library interface and the script *)
(* ===================================================================== *)

(** ** Exceptions and results *)

(** Exceptions, by the Python class that is raised.  [LibraryError] stands
    for any other exception of a library, with its message. *)
Inductive exn : Type :=
| KeyError (key : string)
| IndexError (index : nat)
| FileNotFoundError (path : string)
| ValueError (msg : string)
| LibraryError (msg : string).

Inductive result (A : Type) : Type :=
| Ok (a : A)
| Raise (e : exn).
Arguments Ok {A} a.
Arguments Raise {A} e.

#[global] Instance result_ret : MRet result := fun _ a => Ok a.
#[global] Instance result_bind : MBind result := fun _ _ f m =>
  match m with
  | Ok a => f a
  | Raise e => Raise e
  end.

(** ** Values that cross the library interface *)

(** A sample is a Python dict from column names to text (the fields of a
    preference sample are text, so that formatting one into an f-string gives
    the field itself); a dataset is the sequence of its rows.  A column that
    holds anything but text (a number, a list, the [None] the JSON loader
    puts where a line lacks a column) is outside this model: what is proved
    of samples is proved of samples whose columns are text. *)
Abbreviation Row := (gmap string string).
Abbreviation Dataset := (list (gmap string string)).

(** What the script reads of a tokenizer: [len(tokenizer)],
    [tokenizer.pad_token_id] and [tokenizer.eos_token_id]. *)
Record Tokenizer : Type := {
  tok_len : Z;
  pad_token_id : option Z;
  eos_token_id : option Z;
}.

(** Library objects are held by reference. *)
Inductive ModelRef : Type := model_at (addr : nat).
Inductive StateDictRef : Type := state_dict_at (addr : nat).
Inductive PeftRef : Type := peft_at (addr : nat).
Inductive TrainerRef : Type := trainer_at (addr : nat).
Inductive TrainingArgsRef : Type := training_args_at (addr : nat).
Inductive DataFrameRef : Type := data_frame_at (addr : nat).
Inductive LogHistoryRef : Type := log_history_at (addr : nat).
Inductive T5ModelConfigRef : Type := t5_model_config_at (addr : nat).
Inductive T5ConfigRef : Type := t5_config_at (addr : nat).

(** [peft.TaskType]. *)
Inductive TaskType : Type :=
| SEQ_CLS | SEQ_2_SEQ_LM | CAUSAL_LM | TOKEN_CLS | QUESTION_ANS
| FEATURE_EXTRACTION.

(** The keyword arguments of [LoraConfig(...)] that the script sets; an
    object of the class is given by the settings it holds. *)
Record LoraConfig : Type := {
  task_type : TaskType;
  inference_mode : bool;
  r : Z;
  lora_alpha : Z;
  lora_dropout : Q;
  bias : string;
}.

(** [config.DpoConfig]: the attributes [dpo_train.py] reads.  The class is
    declared in [config.py]; its default values are not part of this file. *)
Record DpoConfig : Type := {
  tokenizer_dir : string;
  sft_model_file : string;
  dpo_train_file : string;
  cfg_per_device_train_batch_size : Z;
  cfg_num_train_epochs : Z;
  cfg_gradient_accumulation_steps : Z;
  cfg_learning_rate : Q;
  cfg_logging_steps : Z;
  cfg_save_steps : Z;
  cfg_output_dir : string;
  cfg_warmup_steps : Z;
  cfg_fp16 : bool;
  cfg_seed : Z;
  log_dir : string;
  cfg_beta : Q;
  max_seq_len : Z;
}.

(** The keyword arguments of [TrainingArguments(...)], lines 72-91. *)
Record TrainingArgumentsKw : Type := {
  per_device_train_batch_size : Z;
  num_train_epochs : Z;
  auto_find_batch_size : bool;
  remove_unused_columns : bool;
  gradient_accumulation_steps : Z;
  learning_rate : Q;
  logging_first_step : bool;
  logging_steps : Z;
  save_steps : Z;
  output_dir : string;
  optim : string;
  report_to : string;
  log_level : string;
  warmup_steps : Z;
  bf16 : bool;
  fp16 : bool;
  seed : Z;
  logging_dir : string;
}.

(** The arguments of [DPOTrainer(...)], lines 94-108. *)
Record DPOTrainerKw : Type := {
  dpo_model : ModelRef;
  dpo_ref_model : ModelRef;
  dpo_peft_config : option LoraConfig;
  dpo_args : TrainingArgsRef;
  dpo_beta : Q;
  dpo_train_dataset : Dataset;
  dpo_eval_dataset : option Dataset;
  dpo_tokenizer : Tokenizer;
  dpo_max_length : Z;
  dpo_max_target_length : Z;
  dpo_max_prompt_length : Z;
  dpo_generate_during_eval : bool;
  dpo_is_encoder_decoder : bool;
}.

(** ** Library calls *)

(** One constructor per callable the script invokes, indexed by the type of
    the value it returns.  [TextToTextModel], [T5ModelConfig], [DpoConfig]
    and [get_T5_config] are imported from modules of the repository that are
    not part of this file; they are calls like the rest.  [LoraConfig_new]
    is the constructor call [LoraConfig(...)] of the [__main__] block. *)
Inductive Call : Type -> Type :=
(* datasets *)
| load_dataset (path data_files split cache_dir : string) : Call Dataset
| Dataset_map (function : Row -> result Row) (self : Dataset) : Call Dataset
| Dataset_shuffle (self : Dataset) (seed : option Z) : Call Dataset
(* transformers, torch, os *)
| PreTrainedTokenizerFast_from_pretrained (dir : string) : Call Tokenizer
| os_path_isdir (path : string) : Call bool
| TextToTextModel_from_pretrained (path : string) : Call ModelRef
| T5ModelConfig_new : Call T5ModelConfigRef
| get_T5_config (c : T5ModelConfigRef) (vocab_size : Z)
    (decoder_start_token_id eos_token_id : option Z) : Call T5ConfigRef
| TextToTextModel_new (c : T5ConfigRef) : Call ModelRef
| torch_load (f map_location : string) : Call StateDictRef
| load_state_dict (self : ModelRef) (sd : StateDictRef) : Call unit
| save_pretrained (self : ModelRef) (dir : string) : Call unit
| TrainingArguments_new (kw : TrainingArgumentsKw) : Call TrainingArgsRef
(* trl *)
| DPOTrainer_new (kw : DPOTrainerKw) : Call TrainerRef
| DPOTrainer_train (self : TrainerRef) : Call unit
| state_log_history (self : TrainerRef) : Call LogHistoryRef
| save_model (self : TrainerRef) (dir : string) : Call unit
(* pandas, time, builtins *)
| pd_DataFrame (data : LogHistoryRef) : Call DataFrameRef
| to_csv (self : DataFrameRef) (path : string) : Call unit
| time_strftime (format : string) : Call string
| print (s : string) : Call unit
(* peft *)
| LoraConfig_new (kw : LoraConfig) : Call LoraConfig
| PeftModel_from_pretrained (model : ModelRef) (model_id : string)
    (config : LoraConfig) (adapter_name : string) : Call PeftRef
| load_adapter (self : PeftRef) (model_id adapter_name : string) : Call unit
| merge_and_unload (self : PeftRef) : Call ModelRef
(* config *)
| DpoConfig_new : Call DpoConfig.

(** ** Programs *)

(** A program is a tree of library calls.  [Try body except k] is Python's
    [try: body / except Exception as e: except e], followed by [k]: an
    exception raised in [body] is handed to [except] instead of ending the
    run.  The script has no [try] statement, so none of its functions below
    has a [Try] node. *)
Inductive Prog (A : Type) : Type :=
| Ret (a : A)
| Vis {X : Type} (c : Call X) (k : X -> Prog A)
| Try {X : Type} (body : Prog X) (except : exn -> Prog X) (k : X -> Prog A).
Arguments Ret {A} a.
Arguments Vis {A X} c k.
Arguments Try {A X} body except k.

Fixpoint bind {A B} (p : Prog A) (f : A -> Prog B) : Prog B :=
  match p with
  | Ret a => f a
  | Vis c k => Vis c (fun x => bind (k x) f)
  | Try body except k => Try body except (fun x => bind (k x) f)
  end.

Definition call {X} (c : Call X) : Prog X := Vis c Ret.

#[global] Instance Prog_ret : MRet Prog := fun _ a => Ret a.
#[global] Instance Prog_bind : MBind Prog := fun _ _ f p => bind p f.

(** ** The script *)

(** Lines 32-38.  A missing key raises [KeyError]. *)
Definition getitem (d : Row) (key : string) : result string :=
  match d !! key with
  | Some v => Ok v
  | None => Raise (KeyError key)
  end.

Definition split_prompt_and_responses (sample : Row) : result Row :=
  p ← getitem sample "prompt";
  c ← getitem sample "chosen";
  r ← getitem sample "rejected";
  mret (<["prompt" := p +:+ "[EOS]"]>
       (<["chosen" := c +:+ "[EOS]"]>
       (<["rejected" := r +:+ "[EOS]"]> ∅))).

(** Lines 20-40. *)
Definition get_dataset (split file cache_dir : string) : Prog Dataset :=
  dataset ← call (load_dataset "json" file split cache_dir);
  mapped ← call (Dataset_map split_prompt_and_responses dataset);
  call (Dataset_shuffle mapped (Some 2333)).

(** The default of the parameter [cache_dir]. *)
Definition default_cache_dir : string := ".cache".

(** Lines 49-62, step 2 of [train_dpo]: the trainable and the reference
    model. *)
Definition load_train_and_ref (config : DpoConfig) (tokenizer : Tokenizer)
  : Prog (ModelRef * ModelRef) :=
  isdir ← call (os_path_isdir (sft_model_file config));
  if (isdir : bool) then
    model_train ← call (TextToTextModel_from_pretrained (sft_model_file config));
    model_ref ← call (TextToTextModel_from_pretrained (sft_model_file config));
    mret (model_train, model_ref)
  else
    mc ← call T5ModelConfig_new;
    t5_config ← call (get_T5_config mc (tok_len tokenizer)
                        (pad_token_id tokenizer) (eos_token_id tokenizer));
    model_train ← call (TextToTextModel_new t5_config);
    sd ← call (torch_load (sft_model_file config) "cpu");
    _ ← call (load_state_dict model_train sd);
    model_ref ← call (TextToTextModel_new t5_config);
    sd' ← call (torch_load (sft_model_file config) "cpu");
    _ ← call (load_state_dict model_ref sd');
    mret (model_train, model_ref).

(** Lines 72-91. *)
Definition training_arguments (config : DpoConfig) : TrainingArgumentsKw :=
  {| per_device_train_batch_size := cfg_per_device_train_batch_size config;
     num_train_epochs := cfg_num_train_epochs config;
     auto_find_batch_size := true;
     remove_unused_columns := false;
     gradient_accumulation_steps := cfg_gradient_accumulation_steps config;
     learning_rate := cfg_learning_rate config;
     logging_first_step := true;
     logging_steps := cfg_logging_steps config;
     save_steps := cfg_save_steps config;
     output_dir := cfg_output_dir config;
     optim := "adafactor";
     report_to := "tensorboard";
     log_level := "info";
     warmup_steps := cfg_warmup_steps config;
     bf16 := false;
     fp16 := cfg_fp16 config;
     seed := cfg_seed config;
     logging_dir := log_dir config |}.

(** Lines 120-121. *)
Definition suffixe (peft_config : option LoraConfig) : string :=
  if peft_config is Some _ then "/lora/" else "/dpo".

Definition model_save_dir (config : DpoConfig) (peft_config : option LoraConfig)
  : string :=
  drop_last_segment (sft_model_file config) +:+ suffixe peft_config.

(** Lines 43-124. *)
Definition train_dpo (config : DpoConfig) (peft_config : option LoraConfig)
  : Prog unit :=
  (* step 1 *)
  tokenizer ← call (PreTrainedTokenizerFast_from_pretrained (tokenizer_dir config));
  (* step 2 *)
  '(model_train, model_ref) ← load_train_and_ref config tokenizer;
  (* 4, 5 *)
  train_dataset ← get_dataset "train" (dpo_train_file config) default_cache_dir;
  let eval_dataset : option Dataset := None in
  (* 6 *)
  training_args ← call (TrainingArguments_new (training_arguments config));
  (* 7 *)
  dpo_trainer ← call (DPOTrainer_new
    {| dpo_model := model_train;
       dpo_ref_model := model_ref;
       dpo_peft_config := peft_config;
       dpo_args := training_args;
       dpo_beta := cfg_beta config;
       dpo_train_dataset := train_dataset;
       dpo_eval_dataset := eval_dataset;
       dpo_tokenizer := tokenizer;
       dpo_max_length := max_seq_len config;
       dpo_max_target_length := max_seq_len config;
       dpo_max_prompt_length := max_seq_len config;
       dpo_generate_during_eval := true;
       dpo_is_encoder_decoder := true |});
  (* 8 *)
  _ ← call (DPOTrainer_train dpo_trainer);
  (* 9 *)
  log_history ← call (state_log_history dpo_trainer);
  loss_log ← call (pd_DataFrame log_history);
  stamp ← call (time_strftime "%Y%m%d-%H%M");
  _ ← call (to_csv loss_log ("./logs/dpo_train_log_" +:+ stamp +:+ ".csv"));
  (* 10 *)
  _ ← call (save_model dpo_trainer (model_save_dir config peft_config));
  call (print ("save model or lora adapter to: " +:+ model_save_dir config peft_config)).

(** Lines 149 and 167. *)
Definition adapter_save_dir (config : DpoConfig) : string :=
  drop_last_segment (sft_model_file config) +:+ "/lora".

Definition save_merge_file (config : DpoConfig) : string :=
  sft_model_file config +:+ ".dpo_lora_merged".

(** Lines 131-140, step 2 of [merge_lora_weight_into_model]. *)
Definition load_sft_model (config : DpoConfig) (tokenizer : Tokenizer)
  : Prog ModelRef :=
  isdir ← call (os_path_isdir (sft_model_file config));
  if (isdir : bool) then
    call (TextToTextModel_from_pretrained (sft_model_file config))
  else
    mc ← call T5ModelConfig_new;
    t5_config ← call (get_T5_config mc (tok_len tokenizer)
                        (pad_token_id tokenizer) (eos_token_id tokenizer));
    sft_model ← call (TextToTextModel_new t5_config);
    sd ← call (torch_load (sft_model_file config) "cpu");
    _ ← call (load_state_dict sft_model sd);
    mret sft_model.

(** Lines 126-169. *)
Definition merge_lora_weight_into_model (config : DpoConfig)
  (peft_config : LoraConfig) : Prog unit :=
  tokenizer ← call (PreTrainedTokenizerFast_from_pretrained (tokenizer_dir config));
  sft_model ← load_sft_model config tokenizer;
  peft_model ← call (PeftModel_from_pretrained sft_model
                       (adapter_save_dir config) peft_config "adapter");
  _ ← call (print ("Load adapter from dir: " +:+ adapter_save_dir config));
  _ ← call (load_adapter peft_model (adapter_save_dir config) "adapter");
  peft_model' ← call (merge_and_unload peft_model);
  _ ← call (save_pretrained sft_model (save_merge_file config));
  call (print ("Save merged model file to: " +:+ save_merge_file config)).

(** Lines 175-180, the keyword arguments of the [LoraConfig(...)] call of the
    [__main__] block. *)
Definition main_peft_config : LoraConfig :=
  {| task_type := SEQ_2_SEQ_LM;
     inference_mode := false;
     r := 16;
     lora_alpha := 16;
     lora_dropout := 1 # 10;
     bias := "all" |}.

(** Lines 172-189, the [__main__] block.  [LoraConfig(...)] is called first
    (lines 174-181) and what it returns is bound to [peft_config], which is
    then not passed: the call on line 186 gives [peft_config=None], and the
    merge on line 189 is commented out.  (Line 18, which sets an environment
    variable when the module is loaded, calls nothing and is left out.) *)
Definition main : Prog unit :=
  peft_config ← call (LoraConfig_new main_peft_config);
  dpo_config ← call DpoConfig_new;
  train_dpo dpo_config None.

(** ** Running a program *)

(** The libraries are given by a handler: what each call returns, and what
    it does to the world, in a world of type [W]. *)
Definition handler (W : Type) : Type :=
  forall X, Call X -> W -> result X * W.

(** One entry of the log of a run: a call and what it returned or raised. *)
Record event : Type := Ev {
  ev_type : Type;
  ev_call : Call ev_type;
  ev_result : result ev_type;
}.
Arguments Ev {ev_type} ev_call ev_result.

(** The run of a program: the calls made, in order, the value returned or
    the exception that ended the run, and the world left behind.  Outside a
    [Try], the first call that raises ends the run; an exception that leaves
    the body of a [Try] starts its [except] branch, and the run goes on with
    what that branch returns. *)
Fixpoint exec {W A} (h : handler W) (p : Prog A) (w : W)
  : list event * result A * W :=
  match p with
  | Ret a => ([], Ok a, w)
  | Vis c k =>
      match h _ c w with
      | (Ok x, w') =>
          let '(t, res, w'') := exec h (k x) w' in
          (Ev c (Ok x) :: t, res, w'')
      | (Raise e, w') => ([Ev c (Raise e)], Raise e, w')
      end
  | Try body except k =>
      match exec h body w with
      | (t, Ok x, w') =>
          let '(t', res, w'') := exec h (k x) w' in
          (t ++ t', res, w'')
      | (t, Raise e, w') =>
          match exec h (except e) w' with
          | (t', Ok x, w'') =>
              let '(t'', res, w''') := exec h (k x) w'' in
              (t ++ t' ++ t'', res, w''')
          | (t', Raise e', w'') => (t ++ t', Raise e', w'')
          end
      end
  end.

Definition trace_of {W A} (h : handler W) (p : Prog A) (w : W) : list event :=
  (exec h p w).1.1.
Definition result_of {W A} (h : handler W) (p : Prog A) (w : W) : result A :=
  (exec h p w).1.2.
Definition world_of {W A} (h : handler W) (p : Prog A) (w : W) : W :=
  (exec h p w).2.

Definition returned (ev : event) : Prop :=
  match ev_result ev with Ok _ => True | Raise _ => False end.
Definition raised (e : exn) (ev : event) : Prop :=
  match ev_result ev with Ok _ => False | Raise e' => e' = e end.

(* ===================================================================== *)
(** * Part 3: a reference semantics of the storage-related calls *)
(* ===================================================================== *)

(** What the calls that read and write files, objects and random generators
    do, following the libraries' documentation.  A model artifact is an
    opaque blob of weights, an adapter likewise.  Calls that do not touch
    this state (configuration objects, the trainer, pandas, the clock) are
    answered by an oracle and leave the world as it is. *)

Section Library.

Variables Weights Adapter : Type.

(** Fresh weights of a model built from a configuration, drawn from the
    state of torch's random generator. *)
Variable init_weights : T5ConfigRef -> Z -> Weights.
(** The base weights with an adapter folded in. *)
Variable lora_merge : LoraConfig -> Weights -> Adapter -> Weights.
(** [numpy.random.default_rng(seed).permutation(n)]. *)
Variable rng_permutation : Z -> nat -> list nat.
(** One step of a global random generator. *)
Variable rng_step : Z -> Z.
(** The rows a split expression selects ([split=] of [load_dataset]). *)
Variable read_split : string -> Dataset -> result Dataset.
(** Every other call. *)
Variable oracle : forall X, Call X -> result X.

Inductive File : Type :=
| FJsonLines (rows : Dataset)
| FStateDict (w : Weights)
| FModelDir (w : Weights)
| FAdapterDir (a : Adapter)
| FTokenizerDir (t : Tokenizer).

Definition is_dir (f : File) : bool :=
  match f with
  | FModelDir _ | FAdapterDir _ | FTokenizerDir _ => true
  | FJsonLines _ | FStateDict _ => false
  end.

(** A [PeftModel]: it wraps the base model object, it does not copy it. *)
Record PeftObj : Type := {
  peft_base : ModelRef;
  peft_lora_config : LoraConfig;
  peft_adapters : gmap string Adapter;
  peft_active : string;
}.

Record World : Type := {
  fs : gmap string File;
  models : gmap nat Weights;
  state_dicts : gmap nat Weights;
  pefts : gmap nat PeftObj;
  next_addr : nat;
  np_random : Z;
  torch_random : Z;
  stdout : list string;
}.

Definition with_fs (f : gmap string File) (w : World) : World :=
  {| fs := f; models := models w; state_dicts := state_dicts w;
     pefts := pefts w; next_addr := next_addr w; np_random := np_random w;
     torch_random := torch_random w; stdout := stdout w |}.
Definition with_models (m : gmap nat Weights) (w : World) : World :=
  {| fs := fs w; models := m; state_dicts := state_dicts w;
     pefts := pefts w; next_addr := next_addr w; np_random := np_random w;
     torch_random := torch_random w; stdout := stdout w |}.
Definition with_state_dicts (m : gmap nat Weights) (w : World) : World :=
  {| fs := fs w; models := models w; state_dicts := m;
     pefts := pefts w; next_addr := next_addr w; np_random := np_random w;
     torch_random := torch_random w; stdout := stdout w |}.
Definition with_pefts (m : gmap nat PeftObj) (w : World) : World :=
  {| fs := fs w; models := models w; state_dicts := state_dicts w;
     pefts := m; next_addr := next_addr w; np_random := np_random w;
     torch_random := torch_random w; stdout := stdout w |}.
Definition with_next_addr (n : nat) (w : World) : World :=
  {| fs := fs w; models := models w; state_dicts := state_dicts w;
     pefts := pefts w; next_addr := n; np_random := np_random w;
     torch_random := torch_random w; stdout := stdout w |}.
Definition with_np_random (z : Z) (w : World) : World :=
  {| fs := fs w; models := models w; state_dicts := state_dicts w;
     pefts := pefts w; next_addr := next_addr w; np_random := z;
     torch_random := torch_random w; stdout := stdout w |}.
Definition with_torch_random (z : Z) (w : World) : World :=
  {| fs := fs w; models := models w; state_dicts := state_dicts w;
     pefts := pefts w; next_addr := next_addr w; np_random := np_random w;
     torch_random := z; stdout := stdout w |}.
Definition with_stdout (l : list string) (w : World) : World :=
  {| fs := fs w; models := models w; state_dicts := state_dicts w;
     pefts := pefts w; next_addr := next_addr w; np_random := np_random w;
     torch_random := torch_random w; stdout := l |}.

(** The weights a model object holds at the moment. *)
Definition weights_of (w : World) (m : ModelRef) : option Weights :=
  let 'model_at a := m in models w !! a.

(** A new model object. *)
Definition alloc_model (x : Weights) (w : World) : ModelRef * World :=
  (model_at (next_addr w),
   with_next_addr (S (next_addr w))
     (with_models (<[next_addr w := x]> (models w)) w)).

(** [Dataset.map(function)]: every row is updated with the dict the
    function returns for it; an exception of the function ends the map. *)
Definition dataset_map (function : Row -> result Row) (ds : Dataset)
  : result Dataset :=
  mapM (M := result) (fun row => out ← function row; mret (out ∪ row)) ds.

(** [Dataset.select(indices)]. *)
Definition dataset_select (indices : list nat) (ds : Dataset)
  : result Dataset :=
  mapM (M := result)
    (fun i => match ds !! i with
              | Some row => Ok row
              | None => Raise (IndexError i)
              end) indices.

(** [Dataset.shuffle(seed)]: with a seed, the generator is built from the
    seed alone; without one, the seed is drawn from numpy's global state,
    which advances. *)
Definition dataset_shuffle (ds : Dataset) (seed : option Z) (w : World)
  : result Dataset * World :=
  match seed with
  | Some s => (dataset_select (rng_permutation s (length ds)) ds, w)
  | None =>
      (dataset_select (rng_permutation (np_random w) (length ds)) ds,
       with_np_random (rng_step (np_random w)) w)
  end.

(** Modelled from the spec: the class [TextToTextModel] is declared in
    [model/chat_model.py], which is not part of this file.  The
    specification has a model artifact as an opaque weight blob, either a
    directory in the serialized pretrained format or a raw weight-state file,
    and has the model copies resolved from a saved directory or from raw
    weights layered onto a freshly constructed architecture.
    [TextToTextModel.from_pretrained(path)] makes a new model object that
    holds the weights of the saved directory. *)
Definition model_from_pretrained (path : string) (w : World)
  : result ModelRef * World :=
  match fs w !! path with
  | Some (FModelDir x) => let '(m, w') := alloc_model x w in (Ok m, w')
  | _ => (Raise (FileNotFoundError path), w)
  end.

(** Modelled from the spec: [TextToTextModel(t5_config)], of the same missing
    class, makes a new model object with freshly drawn weights. *)
Definition model_new (c : T5ConfigRef) (w : World) : result ModelRef * World :=
  let '(m, w') := alloc_model (init_weights c (torch_random w)) w in
  (Ok m, with_torch_random (rng_step (torch_random w)) w').

(** Modelled from the spec: [model.load_state_dict(sd)], of the same missing
    class, layers the raw weights onto the model: the weights of the object
    become those of the state dict. *)
Definition model_load_state_dict (self : ModelRef) (sd : StateDictRef)
  (w : World) : result unit * World :=
  let 'model_at m := self in
  let 'state_dict_at a := sd in
  match models w !! m, state_dicts w !! a with
  | Some _, Some x => (Ok (), with_models (<[m := x]> (models w)) w)
  | _, _ => (Raise (LibraryError "load_state_dict"), w)
  end.

(** Modelled from the spec: [model.save_pretrained(dir)], of the same missing
    class, writes the weights the object holds as a saved directory. *)
Definition model_save_pretrained (self : ModelRef) (dir : string) (w : World)
  : result unit * World :=
  let 'model_at m := self in
  match models w !! m with
  | Some x => (Ok (), with_fs (<[dir := FModelDir x]> (fs w)) w)
  | None => (Raise (LibraryError "save_pretrained"), w)
  end.

(** The handler of the reference semantics.  Of [load_dataset] it gives what
    the script gets back, the rows of the split; the cache the library keeps
    under [cache_dir] is no part of the world, and the rows of a file are
    taken as the loader delivers them. *)
Definition lib : handler World := fun X c =>
  match c in Call X return World -> result X * World with
  | load_dataset path data_files split cache_dir => fun w =>
      if decide (path = "json") then
        match fs w !! data_files with
        | Some (FJsonLines rows) => (read_split split rows, w)
        | _ => (Raise (FileNotFoundError data_files), w)
        end
      else (oracle _ (load_dataset path data_files split cache_dir), w)
  | Dataset_map function self => fun w => (dataset_map function self, w)
  | Dataset_shuffle self seed => dataset_shuffle self seed
  | PreTrainedTokenizerFast_from_pretrained dir => fun w =>
      match fs w !! dir with
      | Some (FTokenizerDir t) => (Ok t, w)
      | _ => (Raise (FileNotFoundError dir), w)
      end
  | os_path_isdir path => fun w =>
      (Ok (from_option is_dir false (fs w !! path)), w)
  | TextToTextModel_from_pretrained path => model_from_pretrained path
  | TextToTextModel_new c => model_new c
  | torch_load f map_location => fun w =>
      match fs w !! f with
      | Some (FStateDict x) =>
          (Ok (state_dict_at (next_addr w)),
           with_next_addr (S (next_addr w))
             (with_state_dicts (<[next_addr w := x]> (state_dicts w)) w))
      | _ => (Raise (FileNotFoundError f), w)
      end
  | load_state_dict self sd => model_load_state_dict self sd
  | save_pretrained self dir => model_save_pretrained self dir
  | PeftModel_from_pretrained (model_at m) model_id config adapter_name => fun w =>
      match models w !! m, fs w !! model_id with
      | Some _, Some (FAdapterDir a) =>
          (Ok (peft_at (next_addr w)),
           with_next_addr (S (next_addr w))
             (with_pefts (<[next_addr w :=
                            {| peft_base := model_at m;
                               peft_lora_config := config;
                               peft_adapters := {[adapter_name := a]};
                               peft_active := adapter_name |}]> (pefts w)) w))
      | Some _, _ => (Raise (FileNotFoundError model_id), w)
      | None, _ => (Raise (LibraryError "PeftModel.from_pretrained"), w)
      end
  | load_adapter (peft_at p) model_id adapter_name => fun w =>
      match pefts w !! p, fs w !! model_id with
      | Some o, Some (FAdapterDir a) =>
          (Ok (),
           with_pefts (<[p := {| peft_base := peft_base o;
                                 peft_lora_config := peft_lora_config o;
                                 peft_adapters :=
                                   <[adapter_name := a]> (peft_adapters o);
                                 peft_active := peft_active o |}]> (pefts w)) w)
      | Some _, _ => (Raise (FileNotFoundError model_id), w)
      | None, _ => (Raise (LibraryError "load_adapter"), w)
      end
  | merge_and_unload (peft_at p) => fun w =>
      match pefts w !! p with
      | Some o =>
          let 'model_at m := peft_base o in
          match models w !! m with
          | Some x =>
              let x' := match peft_adapters o !! peft_active o with
                        | Some a => lora_merge (peft_lora_config o) x a
                        | None => x
                        end in
              (Ok (model_at m),
               with_pefts (<[p := {| peft_base := peft_base o;
                                     peft_lora_config := peft_lora_config o;
                                     peft_adapters := ∅;
                                     peft_active := peft_active o |}]> (pefts w))
                 (with_models (<[m := x']> (models w)) w))
          | None => (Raise (LibraryError "merge_and_unload"), w)
          end
      | None => (Raise (LibraryError "merge_and_unload"), w)
      end
  | print s => fun w => (Ok (), with_stdout (stdout w ++ [s]) w)
  | c => fun w => (oracle _ c, w)
  end.

End Library.

Arguments fs {Weights Adapter} w.
Arguments models {Weights Adapter} w.
Arguments state_dicts {Weights Adapter} w.
Arguments pefts {Weights Adapter} w.
Arguments next_addr {Weights Adapter} w.
Arguments stdout {Weights Adapter} w.
Arguments np_random {Weights Adapter} w.
Arguments torch_random {Weights Adapter} w.
Arguments weights_of {Weights Adapter} w m.
Arguments FJsonLines {Weights Adapter} rows.
Arguments FStateDict {Weights Adapter} w.
Arguments FModelDir {Weights Adapter} w.
Arguments FAdapterDir {Weights Adapter} a.
Arguments FTokenizerDir {Weights Adapter} t.

(* ===================================================================== *)
(** * Part 4: what is observed of a run *)
(* ===================================================================== *)

(** A property of calls that holds of every call a program can make. *)
Fixpoint all_calls (P : forall X, Call X -> Prop) {A} (p : Prog A) : Prop :=
  match p with
  | Ret _ => True
  | Vis c k => P _ c /\ forall x, all_calls P (k x)
  | Try body except k =>
      all_calls P body /\ (forall e, all_calls P (except e))
      /\ forall x, all_calls P (k x)
  end.

(** A program in which no exception is caught: it has no [Try] node. *)
Fixpoint catches_nothing {A} (p : Prog A) : Prop :=
  match p with
  | Ret _ => True
  | Vis _ k => forall x, catches_nothing (k x)
  | Try _ _ _ => False
  end.

(** In a run, an exception is the end: when a call raises [e], no call
    follows it and the run raises [e]; and a run raises nothing that its
    last call did not raise. *)
Definition propagates {W A} (h : handler W) (p : Prog A) (w : W) : Prop :=
  (forall t ev t' e,
      trace_of h p w = t ++ ev :: t' -> raised e ev ->
      t' = [] /\ result_of h p w = Raise e)
  /\ (forall e,
      result_of h p w = Raise e ->
      exists t ev, trace_of h p w = t ++ [ev] /\ raised e ev).

(** What single events tell. *)

(** The directory of a [dpo_trainer.save_model(dir)]. *)
Definition trainer_saved_to (ev : event) : option string :=
  match ev_call ev with
  | save_model _ dir => Some dir
  | _ => None
  end.

(** The directory an adapter is read from. *)
Definition adapter_read_from (ev : event) : option string :=
  match ev_call ev with
  | PeftModel_from_pretrained _ model_id _ _ => Some model_id
  | load_adapter _ model_id _ => Some model_id
  | _ => None
  end.

(** The path of a [model.save_pretrained(path)]. *)
Definition model_saved_to (ev : event) : option string :=
  match ev_call ev with
  | save_pretrained _ dir => Some dir
  | _ => None
  end.

(** The arguments a trainer is built with. *)
Definition trainer_kw (ev : event) : option DPOTrainerKw :=
  match ev_call ev with
  | DPOTrainer_new kw => Some kw
  | _ => None
  end.

(** Calls into peft. *)
Definition is_peft_call (ev : event) : bool :=
  match ev_call ev with
  | LoraConfig_new _ | PeftModel_from_pretrained _ _ _ _ | load_adapter _ _ _
  | merge_and_unload _ => true
  | _ => false
  end.

(** Any call that loads model weights. *)
Definition model_loaded_from (ev : event) : option string :=
  match ev_call ev with
  | TextToTextModel_from_pretrained path => Some path
  | torch_load f _ => Some f
  | _ => None
  end.

(** The three text fields of a preference sample. *)
Definition eos_fields : list string := ["prompt"; "chosen"; "rejected"].

(** The [__main__] block as the specification words it: the orchestrator is
    called with the adapter settings built in the block. *)
Definition main_as_specified : Prog unit :=
  peft_config ← call (LoraConfig_new main_peft_config);
  dpo_config ← call DpoConfig_new;
  train_dpo dpo_config (Some peft_config).

(** The components a POSIX path resolves through: empty segments, which
    repeated and trailing slashes produce, do not count. *)
Definition path_components (p : string) : list string :=
  filter (fun seg => seg ≠ "") (Py.str_split slash p).

(** [os.path.isabs]. *)
Definition is_abs (p : string) : bool :=
  match p with
  | String c _ => bool_decide (c = slash)
  | EmptyString => false
  end.

(** Two paths name the same file when both are absolute or both relative and
    their components agree.  The test is on the text of the paths: it is
    sufficient, not necessary, as ['.'] and ['..'] segments, links and the
    working directory of a relative path can make two paths that differ here
    name one file. *)
Definition same_file (p q : string) : Prop :=
  is_abs p = is_abs q /\ path_components p = path_components q.

(** What follows the model-loading step in a run of [train_dpo] that
    returns. *)
Definition train_dpo_rest_events (config : DpoConfig)
  (peft_config : option LoraConfig) (tokenizer : Tokenizer)
  (model_train model_ref : ModelRef) (dataset mapped train_dataset : Dataset)
  (training_args : TrainingArgsRef) (dpo_trainer : TrainerRef)
  (log_history : LogHistoryRef) (loss_log : DataFrameRef) (stamp : string)
  : list event :=
  [ Ev (load_dataset "json" (dpo_train_file config) "train" ".cache") (Ok dataset);
    Ev (Dataset_map split_prompt_and_responses dataset) (Ok mapped);
    Ev (Dataset_shuffle mapped (Some 2333)) (Ok train_dataset);
    Ev (TrainingArguments_new (training_arguments config)) (Ok training_args);
    Ev (DPOTrainer_new
          {| dpo_model := model_train;
             dpo_ref_model := model_ref;
             dpo_peft_config := peft_config;
             dpo_args := training_args;
             dpo_beta := cfg_beta config;
             dpo_train_dataset := train_dataset;
             dpo_eval_dataset := None;
             dpo_tokenizer := tokenizer;
             dpo_max_length := max_seq_len config;
             dpo_max_target_length := max_seq_len config;
             dpo_max_prompt_length := max_seq_len config;
             dpo_generate_during_eval := true;
             dpo_is_encoder_decoder := true |}) (Ok dpo_trainer);
    Ev (DPOTrainer_train dpo_trainer) (Ok ());
    Ev (state_log_history dpo_trainer) (Ok log_history);
    Ev (pd_DataFrame log_history) (Ok loss_log);
    Ev (time_strftime "%Y%m%d-%H%M") (Ok stamp);
    Ev (to_csv loss_log ("./logs/dpo_train_log_" +:+ stamp +:+ ".csv")) (Ok ());
    Ev (save_model dpo_trainer (model_save_dir config peft_config)) (Ok ());
    Ev (print ("save model or lora adapter to: "
               +:+ model_save_dir config peft_config)) (Ok ()) ].

(** What follows the model-loading step in a run of
    [merge_lora_weight_into_model] that returns. *)
Definition merge_rest_events (config : DpoConfig) (peft_config : LoraConfig)
  (sft_model : ModelRef) (peft_model : PeftRef) (merged : ModelRef)
  : list event :=
  [ Ev (PeftModel_from_pretrained sft_model (adapter_save_dir config)
          peft_config "adapter") (Ok peft_model);
    Ev (print ("Load adapter from dir: " +:+ adapter_save_dir config)) (Ok ());
    Ev (load_adapter peft_model (adapter_save_dir config) "adapter") (Ok ());
    Ev (merge_and_unload peft_model) (Ok merged);
    Ev (save_pretrained sft_model (save_merge_file config)) (Ok ());
    Ev (print ("Save merged model file to: " +:+ save_merge_file config)) (Ok ()) ].


(** ** A concrete world *)

(** A small installation on which the statements below are run: a tokenizer
    directory, a supervised model as a raw state file and as a saved
    directory, a saved adapter, and a preference file of three samples.
    Weights and adapters are numbers; merging adds them. *)
Module Demo.

Definition tokenizer : Tokenizer :=
  {| tok_len := 29298; pad_token_id := Some 0; eos_token_id := Some 1 |}.

Definition config : DpoConfig :=
  {| tokenizer_dir := "./model_save/tokenizer";
     sft_model_file := "./model_save/sft/sft_model.bin";
     dpo_train_file := "./data/my_dpo_data.json";
     cfg_per_device_train_batch_size := 4;
     cfg_num_train_epochs := 4;
     cfg_gradient_accumulation_steps := 8;
     cfg_learning_rate := 1 # 100000;
     cfg_logging_steps := 20;
     cfg_save_steps := 2000;
     cfg_output_dir := "./model_save/dpo";
     cfg_warmup_steps := 1000;
     cfg_fp16 := true;
     cfg_seed := 23333;
     log_dir := "./logs";
     cfg_beta := 1 # 10;
     max_seq_len := 320 |}.

(** The same, with the supervised model given as a saved directory. *)
Definition config_dir : DpoConfig :=
  {| tokenizer_dir := tokenizer_dir config;
     sft_model_file := "./model_save/sft_dir/checkpoint";
     dpo_train_file := dpo_train_file config;
     cfg_per_device_train_batch_size := cfg_per_device_train_batch_size config;
     cfg_num_train_epochs := cfg_num_train_epochs config;
     cfg_gradient_accumulation_steps := cfg_gradient_accumulation_steps config;
     cfg_learning_rate := cfg_learning_rate config;
     cfg_logging_steps := cfg_logging_steps config;
     cfg_save_steps := cfg_save_steps config;
     cfg_output_dir := cfg_output_dir config;
     cfg_warmup_steps := cfg_warmup_steps config;
     cfg_fp16 := cfg_fp16 config;
     cfg_seed := cfg_seed config;
     log_dir := log_dir config;
     cfg_beta := cfg_beta config;
     max_seq_len := max_seq_len config |}.

Definition sample (p c r : string) : Row :=
  <["prompt" := p]> (<["chosen" := c]> (<["rejected" := r]> ∅)).

Definition rows : Dataset :=
  [ sample "p0" "c0" "r0"; sample "p1" "c1" "r1"; sample "p2" "c2" "r2" ].

Definition init_weights (c : T5ConfigRef) (state : Z) : Z := 1000 + state.
Definition lora_merge (c : LoraConfig) (x a : Z) : Z := x + a.
Definition rng_step (state : Z) : Z := state + 1.

(** A stand-in for the generator: the identity rotated by the seed. *)
Definition rng_permutation (seed : Z) (n : nat) : list nat :=
  rotate (Z.to_nat (seed `mod` Z.of_nat n)) (seq 0 n).

Definition read_split (split : string) (rows : Dataset) : result Dataset :=
  if decide (split = "train") then Ok rows
  else Raise (ValueError split).

Definition oracle : forall X, Call X -> result X := fun X c =>
  match c in Call X return result X with
  | load_dataset _ _ _ _ => Ok []
  | Dataset_map _ self => Ok self
  | Dataset_shuffle self _ => Ok self
  | PreTrainedTokenizerFast_from_pretrained _ => Ok tokenizer
  | os_path_isdir _ => Ok false
  | TextToTextModel_from_pretrained _ => Ok (model_at 0)
  | T5ModelConfig_new => Ok (t5_model_config_at 0)
  | get_T5_config _ _ _ _ => Ok (t5_config_at 0)
  | TextToTextModel_new _ => Ok (model_at 0)
  | torch_load _ _ => Ok (state_dict_at 0)
  | load_state_dict _ _ => Ok ()
  | save_pretrained _ _ => Ok ()
  | TrainingArguments_new _ => Ok (training_args_at 0)
  | DPOTrainer_new _ => Ok (trainer_at 0)
  | DPOTrainer_train _ => Ok ()
  | state_log_history _ => Ok (log_history_at 0)
  | save_model _ _ => Ok ()
  | pd_DataFrame _ => Ok (data_frame_at 0)
  | to_csv _ _ => Ok ()
  | time_strftime _ => Ok "20240101-0000"
  | print _ => Ok ()
  | LoraConfig_new kw => Ok kw
  | PeftModel_from_pretrained _ _ _ _ => Ok (peft_at 0)
  | load_adapter _ _ _ => Ok ()
  | merge_and_unload _ => Ok (model_at 0)
  | DpoConfig_new => Ok config
  end.

Definition files : gmap string (File Z Z) :=
  <["./model_save/tokenizer" := FTokenizerDir tokenizer]>
  (<["./model_save/sft/sft_model.bin" := FStateDict 7]>
  (<["./model_save/sft_dir/checkpoint" := FModelDir 7]>
  (<["./model_save/sft/lora" := FAdapterDir 5]>
  (<["./model_save/sft_dir/lora" := FAdapterDir 5]>
  (<["./data/my_dpo_data.json" := FJsonLines rows]> ∅))))).

Definition world : World Z Z :=
  {| fs := files; models := ∅; state_dicts := ∅; pefts := ∅;
     next_addr := 0; np_random := 10; torch_random := 42; stdout := [] |}.

(** The same files seen by another process: other random states, other
    objects already allocated. *)
Definition world' : World Z Z :=
  {| fs := files; models := {[ 0%nat := 3 ]}; state_dicts := ∅; pefts := ∅;
     next_addr := 1; np_random := 12; torch_random := 43; stdout := ["hello"] |}.

Definition run : handler (World Z Z) :=
  lib Z Z init_weights lora_merge rng_permutation rng_step read_split oracle.

End Demo.

(** ** More observations *)

(** The number of characters of a path other than ['/']. *)
Fixpoint count_non_slash (p : string) : nat :=
  match p with
  | EmptyString => 0
  | String c p' => (if decide (c = slash) then 0 else 1) + count_non_slash p'
  end.


(** Kinds of calls. *)
Definition is_train X (c : Call X) : bool :=
  match c with DPOTrainer_train _ => true | _ => false end.
Definition is_to_csv X (c : Call X) : bool :=
  match c with to_csv _ _ => true | _ => false end.
Definition is_save_model X (c : Call X) : bool :=
  match c with save_model _ _ => true | _ => false end.
Definition is_shuffle X (c : Call X) : bool :=
  match c with Dataset_shuffle _ _ => true | _ => false end.
Definition is_save_pretrained X (c : Call X) : bool :=
  match c with save_pretrained _ _ => true | _ => false end.

(** Calls into datasets. *)
Definition is_dataset X (c : Call X) : bool :=
  match c with
  | load_dataset _ _ _ _ | Dataset_map _ _ | Dataset_shuffle _ _ => true
  | _ => false
  end.

(** Calls that set up, run or record a training. *)
Definition is_training X (c : Call X) : bool :=
  match c with
  | TrainingArguments_new _ | DPOTrainer_new _ | DPOTrainer_train _
  | state_log_history _ | save_model _ _ | pd_DataFrame _ | to_csv _ _
  | time_strftime _ => true
  | _ => false
  end.

(** An event is a call of the kind [k]; it is one that returned. *)
Definition called (k : forall X, Call X -> bool) (ev : event) : bool :=
  k _ (ev_call ev).
Definition returned_from (k : forall X, Call X -> bool) (ev : event) : bool :=
  k _ (ev_call ev) && (if ev_result ev is Ok _ then true else false).

(** In a log, every event with [Q] comes after some event with [P]. *)
Definition preceded (P Q : event -> bool) (t : list event) : Prop :=
  forall t1 ev t2,
    t = t1 ++ ev :: t2 -> Q ev = true -> Exists (fun e => P e = true) t1.

(** The same, by a scan of the log; [seen] tells whether an event with [P]
    has gone by. *)
Fixpoint preceded_check (P Q : event -> bool) (seen : bool) (t : list event)
  : bool :=
  match t with
  | [] => true
  | ev :: t' => (negb (Q ev) || seen) && preceded_check P Q (seen || P ev) t'
  end.

(** A write of a model to another path than [p]. *)
Definition writes_elsewhere (p : string) X (c : Call X) : Prop :=
  match c with
  | save_pretrained _ dir => dir <> p
  | _ => True
  end.

(** [Demo.config], pointed at the merged model. *)
Definition demo_config_merged : DpoConfig :=
  {| tokenizer_dir := tokenizer_dir Demo.config;
     sft_model_file := "./model_save/sft/sft_model.bin.dpo_lora_merged";
     dpo_train_file := dpo_train_file Demo.config;
     cfg_per_device_train_batch_size := cfg_per_device_train_batch_size Demo.config;
     cfg_num_train_epochs := cfg_num_train_epochs Demo.config;
     cfg_gradient_accumulation_steps := cfg_gradient_accumulation_steps Demo.config;
     cfg_learning_rate := cfg_learning_rate Demo.config;
     cfg_logging_steps := cfg_logging_steps Demo.config;
     cfg_save_steps := cfg_save_steps Demo.config;
     cfg_output_dir := cfg_output_dir Demo.config;
     cfg_warmup_steps := cfg_warmup_steps Demo.config;
     cfg_fp16 := cfg_fp16 Demo.config;
     cfg_seed := cfg_seed Demo.config;
     log_dir := log_dir Demo.config;
     cfg_beta := cfg_beta Demo.config;
     max_seq_len := max_seq_len Demo.config |}.

(** The path of a [loss_log.to_csv(path)]. *)
Definition log_written_to (ev : event) : option string :=
  match ev_call ev with
  | to_csv _ path => Some path
  | _ => None
  end.


(* ===================================================================== *)
(** * Part 5: properties *)
(* ===================================================================== *)

(** ** Strings *)

Module PyFacts.
Import Py.

Lemma append_cons c s t : String c s +:+ t = String c (s +:+ t).
Proof. reflexivity. Qed.

Lemma append_nil_l s : "" +:+ s = s.
Proof. reflexivity. Qed.

Lemma append_nil_r s : s +:+ "" = s.
Proof. induction s as [|c s IH]; [done|]. by rewrite append_cons, IH. Qed.

Lemma append_assoc s t u : (s +:+ t) +:+ u = s +:+ t +:+ u.
Proof. induction s as [|c s IH]; [done|]. by rewrite !append_cons, IH. Qed.

Lemma length_append s t :
  String.length (s +:+ t) = (String.length s + String.length t)%nat.
Proof. induction s as [|c s IH]; [done|]. rewrite append_cons. simpl. by rewrite IH. Qed.

Lemma substring_app_r s t :
  String.substring (String.length s) (String.length t) (s +:+ t) = t.
Proof.
  induction s as [|c s IH]; [|by rewrite append_cons].
  rewrite append_nil_l. simpl.
  induction t as [|c t IH]; [done|]. simpl. by rewrite IH.
Qed.

(** A string to which a suffix was appended ends with it. *)
Lemma str_endswith_app s suffix : str_endswith (s +:+ suffix) suffix = true.
Proof.
  unfold str_endswith. rewrite length_append.
  replace (String.length s + String.length suffix - String.length suffix)%nat
    with (String.length s) by lia.
  rewrite substring_app_r.
  apply andb_true_intro; split; apply bool_decide_eq_true; [lia|done].
Qed.

Lemma str_split_nonempty sep s : str_split sep s ≠ [].
Proof.
  destruct s as [|c s]; simpl; [done|].
  case_decide; [done|]. by destruct (str_split sep s).
Qed.

Lemma str_split_single sep s :
  str_contains sep s = false -> str_split sep s = [s].
Proof.
  induction s as [|c s IH]; simpl; [done|]. intros H.
  apply orb_false_elim in H as [Hc Hs]. apply bool_decide_eq_false in Hc.
  case_decide; [done|]. by rewrite (IH Hs).
Qed.

(** Splitting at a separator: the segments on its left, then those on its
    right. *)
Lemma str_split_app sep s t :
  str_split sep (s +:+ String sep t) = str_split sep s ++ str_split sep t.
Proof.
  induction s as [|c s IH].
  - rewrite append_nil_l. simpl. by case_decide.
  - rewrite append_cons. simpl. case_decide; [by rewrite IH|].
    rewrite IH. destruct (str_split sep s) eqn:E; [|done].
    by apply str_split_nonempty in E.
Qed.

Lemma str_join_cons sep x l :
  l ≠ [] -> str_join sep (x :: l) = x +:+ sep +:+ str_join sep l.
Proof. by destruct l. Qed.

(** Joining the segments with the separator gives the string back. *)
Lemma str_join_split sep s :
  str_join (String sep "") (str_split sep s) = s.
Proof.
  induction s as [|c s IH]; simpl; [done|].
  case_decide as Hc.
  - rewrite str_join_cons by apply str_split_nonempty.
    by rewrite IH, Hc.
  - destruct (str_split sep s) as [|x l] eqn:E.
    { by apply str_split_nonempty in E. }
    destruct l as [|y l]; simpl in *; [by rewrite IH|].
    by rewrite <- IH.
Qed.

(** [l[0:-1]] drops the last element. *)
Lemma slice_0_m1 {A} (l : list A) : slice 0 (-1) l = take (length l - 1) l.
Proof.
  unfold slice, slice_index. simpl.
  destruct l as [|x l]; [done|].
  rewrite drop_0. f_equal. rewrite length_cons. lia.
Qed.

Lemma slice_0_m1_snoc {A} (l : list A) x : slice 0 (-1) (l ++ [x]) = l.
Proof.
  rewrite slice_0_m1, length_app. simpl.
  replace (length l + 1 - 1)%nat with (length l) by lia.
  by rewrite take_app_length.
Qed.

End PyFacts.

(** The path with its last segment removed: what precedes the last ['/'],
    and the empty string for a path that has none. *)
Lemma drop_last_segment_dirname dir base :
  Py.str_contains slash base = false ->
  drop_last_segment (dir +:+ "/" +:+ base) = dir.
Proof.
  intros Hbase. unfold drop_last_segment.
  change ("/" +:+ base) with (String slash base).
  rewrite PyFacts.str_split_app, (PyFacts.str_split_single _ base Hbase).
  rewrite PyFacts.slice_0_m1_snoc. apply PyFacts.str_join_split.
Qed.

Lemma drop_last_segment_no_slash base :
  Py.str_contains slash base = false -> drop_last_segment base = "".
Proof.
  intros Hbase. unfold drop_last_segment.
  by rewrite (PyFacts.str_split_single _ base Hbase).
Qed.

(** Every path falls under one of the two lemmas above. *)
Lemma path_cases p :
  Py.str_contains slash p = false
  \/ exists dir base, p = dir +:+ "/" +:+ base
                      /\ Py.str_contains slash base = false.
Proof.
  induction p as [|c p IH]; [by left|].
  destruct IH as [Hp|(dir & base & -> & Hbase)].
  - simpl. destruct (decide (c = slash)) as [->|Hc].
    + right. by exists "", p.
    + left. rewrite Hp. by rewrite bool_decide_eq_false_2.
  - right. by exists (String c dir), base.
Qed.

(** ** Runs *)

Section Runs.
Context {W : Type} (h : handler W).

Lemma exec_bind {A B} (p : Prog A) (f : A -> Prog B) w :
  exec h (bind p f) w =
  match exec h p w with
  | (t, Ok a, w') =>
      let '(t', res, w'') := exec h (f a) w' in (t ++ t', res, w'')
  | (t, Raise e, w') => (t, Raise e, w')
  end.
Proof.
  revert B f w.
  induction p as [A a|A X c k IH|A X body _ except _ k IH]; intros B f w; simpl.
  - by destruct (exec h (f a) w) as [[??]?].
  - destruct (h X c w) as [[x|e] w']; [|done].
    rewrite IH. destruct (exec h (k x) w') as [[t [a|e]] w'']; [|done].
    by destruct (exec h (f a) w'') as [[??]?].
  - destruct (exec h body w) as [[t [x|e]] w'].
    + rewrite IH. destruct (exec h (k x) w') as [[t' [a|e]] w'']; [|done].
      destruct (exec h (f a) w'') as [[??]?]. by rewrite (assoc_L (++)).
    + destruct (exec h (except e) w') as [[t' [x|e']] w'']; [|done].
      rewrite IH. destruct (exec h (k x) w'') as [[t'' [a|e'']] w''']; [|done].
      destruct (exec h (f a) w''') as [[??]?]. by rewrite !(assoc_L (++)).
Qed.

(** A run of a program that catches nothing either returns, and then every
    call returned; or its last call raised, and the run ends with that very
    exception. *)
Lemma exec_outcome {A} (p : Prog A) w :
  catches_nothing p ->
  match exec h p w with
  | (t, Ok _, _) => Forall returned t
  | (t, Raise e, _) =>
      exists t' ev, t = t' ++ [ev] /\ Forall returned t' /\ raised e ev
  end.
Proof.
  revert w.
  induction p as [A a|A X c k IH|A X body _ except _ k _]; intros w Hp; simpl;
    [done| |done].
  destruct (h X c w) as [[x|e] w'].
  - specialize (IH x w' (Hp x)).
    destruct (exec h (k x) w') as [[t [a|e]] w''].
    + by constructor.
    + destruct IH as (t' & ev & -> & Ht' & Hev).
      exists (Ev c (Ok x) :: t'), ev. split_and!; [done| by constructor |done].
  - exists [], (Ev c (Raise e)). by split_and!.
Qed.

Lemma all_calls_trace (P : forall X, Call X -> Prop) {A} (p : Prog A) w :
  all_calls P p ->
  Forall (fun ev => P _ (ev_call ev)) (trace_of h p w).
Proof.
  unfold trace_of. revert w.
  induction p as [A a|A X c k IH|A X body IHb except IHe k IH];
    intros w Hp; simpl; [done| |].
  - destruct Hp as [Hc Hk]. destruct (h X c w) as [[x|e] w'].
    + specialize (IH x w' (Hk x)).
      destruct (exec h (k x) w') as [[t res] w'']. by constructor.
    + by repeat constructor.
  - destruct Hp as (Hb & He & Hk). specialize (IHb w Hb).
    destruct (exec h body w) as [[t [x|e]] w']; simpl in IHb.
    + specialize (IH x w' (Hk x)).
      destruct (exec h (k x) w') as [[t' res] w'']. by apply Forall_app.
    + specialize (IHe e w' (He e)).
      destruct (exec h (except e) w') as [[t' [x|e']] w'']; simpl in IHe.
      * specialize (IH x w'' (Hk x)).
        destruct (exec h (k x) w'') as [[t'' res] w''']. simpl in IH |- *.
        by rewrite !Forall_app.
      * by apply Forall_app.
Qed.

Lemma exec_propagates {A} (p : Prog A) w :
  catches_nothing p -> propagates h p w.
Proof.
  intros Hp. unfold propagates, trace_of, result_of.
  pose proof (exec_outcome p w Hp) as H.
  destruct (exec h p w) as [[t0 [a|e0]] w']; simpl; split.
  - intros t ev t' e -> Hev.
    apply Forall_app in H as [_ H]. apply Forall_cons in H as [H _].
    unfold returned in H. unfold raised in Hev. by destruct (ev_result ev).
  - done.
  - destruct H as (t1 & ev1 & -> & Ht1 & Hev1).
    intros t ev t' e Heq Hev.
    assert (Hnot : forall l, Forall returned l -> ev ∈ l -> False).
    { intros l Hl Hin. rewrite Forall_forall in Hl. specialize (Hl _ Hin).
      unfold returned in Hl. unfold raised in Hev.
      by destruct (ev_result ev). }
    destruct t' as [|ev' t'] using rev_ind.
    + apply app_inj_tail in Heq as [_ <-].
      unfold raised in *. destruct (ev_result ev1); [done|].
      split; [done|congruence].
    + clear IHt'. exfalso.
      rewrite app_comm_cons, app_assoc in Heq.
      apply app_inj_tail in Heq as [-> _].
      apply (Hnot _ Ht1). set_solver.
  - destruct H as (t1 & ev1 & -> & Ht1 & Hev1).
    intros e [= <-]. by exists t1, ev1.
Qed.

End Runs.

(** ** The shape of the runs *)

Ltac handler_step h :=
  match goal with
  | |- context [h ?X ?c ?w] =>
      let E := fresh "Hcall" in
      destruct (h X c w) as [[?|?] ?] eqn:E; cbn; [|try exact I]
  end.

(** The model-loading step of [train_dpo], when it returns. *)
Lemma load_train_and_ref_returns W (h : handler W) w config tokenizer :
  let path := sft_model_file config in
  match exec h (load_train_and_ref config tokenizer) w with
  | (t, Ok (model_train, model_ref), _) =>
      t = [Ev (os_path_isdir path) (Ok true);
           Ev (TextToTextModel_from_pretrained path) (Ok model_train);
           Ev (TextToTextModel_from_pretrained path) (Ok model_ref)]
      \/ exists mc c sd sd',
          t = [Ev (os_path_isdir path) (Ok false);
               Ev T5ModelConfig_new (Ok mc);
               Ev (get_T5_config mc (tok_len tokenizer)
                     (pad_token_id tokenizer) (eos_token_id tokenizer)) (Ok c);
               Ev (TextToTextModel_new c) (Ok model_train);
               Ev (torch_load path "cpu") (Ok sd);
               Ev (load_state_dict model_train sd) (Ok ());
               Ev (TextToTextModel_new c) (Ok model_ref);
               Ev (torch_load path "cpu") (Ok sd');
               Ev (load_state_dict model_ref sd') (Ok ())]
  | (_, Raise _, _) => True
  end.
Proof.
  unfold load_train_and_ref. cbn.
  handler_step h. destruct a as [|]; cbn.
  - do 2 handler_step h. by left.
  - do 8 handler_step h. right.
    repeat match goal with u : unit |- _ => destruct u end. by eexists _, _, _, _.
Qed.

Lemma train_dpo_returns W (h : handler W) w config peft_config :
  match exec h (train_dpo config peft_config) w with
  | (t, Ok _, _) =>
      exists tokenizer w1 t_load model_train model_ref w2,
        exec h (load_train_and_ref config tokenizer) w1
          = (t_load, Ok (model_train, model_ref), w2)
        /\ exists dataset mapped train_dataset training_args dpo_trainer
                  log_history loss_log stamp,
          t = Ev (PreTrainedTokenizerFast_from_pretrained (tokenizer_dir config))
                 (Ok tokenizer)
              :: t_load
              ++ train_dpo_rest_events config peft_config tokenizer
                   model_train model_ref dataset mapped train_dataset
                   training_args dpo_trainer log_history loss_log stamp
  | (_, Raise _, _) => True
  end.
Proof.
  unfold train_dpo. unfold mbind at 1, Prog_bind at 1. cbn [bind call exec].
  destruct (h _ _ w) as [[tokenizer|e] w1]; [|done].
  unfold mbind at 1, Prog_bind at 1. rewrite exec_bind.
  destruct (exec h (load_train_and_ref _ _) w1)
    as [[t_load [[model_train model_ref]|e]] w2] eqn:Hload; [|done].
  unfold get_dataset. cbn.
  do 12 handler_step h.
  repeat match goal with u : unit |- _ => destruct u end.
  exists tokenizer, w1, t_load, model_train, model_ref, w2. split; [done|].
  by eexists _, _, _, _, _, _, _, _.
Qed.

(** The model-loading step of [merge_lora_weight_into_model], when it
    returns. *)
Lemma load_sft_model_returns W (h : handler W) w config tokenizer :
  let path := sft_model_file config in
  match exec h (load_sft_model config tokenizer) w with
  | (t, Ok sft_model, _) =>
      t = [Ev (os_path_isdir path) (Ok true);
           Ev (TextToTextModel_from_pretrained path) (Ok sft_model)]
      \/ exists mc c sd,
          t = [Ev (os_path_isdir path) (Ok false);
               Ev T5ModelConfig_new (Ok mc);
               Ev (get_T5_config mc (tok_len tokenizer)
                     (pad_token_id tokenizer) (eos_token_id tokenizer)) (Ok c);
               Ev (TextToTextModel_new c) (Ok sft_model);
               Ev (torch_load path "cpu") (Ok sd);
               Ev (load_state_dict sft_model sd) (Ok ())]
  | (_, Raise _, _) => True
  end.
Proof.
  unfold load_sft_model. cbn.
  handler_step h. destruct a as [|]; cbn.
  - handler_step h. by left.
  - do 5 handler_step h. right.
    repeat match goal with u : unit |- _ => destruct u end. by eexists _, _, _.
Qed.

Lemma merge_returns W (h : handler W) w config peft_config :
  match exec h (merge_lora_weight_into_model config peft_config) w with
  | (t, Ok _, _) =>
      exists tokenizer w1 t_load sft_model w2,
        exec h (load_sft_model config tokenizer) w1 = (t_load, Ok sft_model, w2)
        /\ exists peft_model merged,
          t = Ev (PreTrainedTokenizerFast_from_pretrained (tokenizer_dir config))
                 (Ok tokenizer)
              :: t_load
              ++ merge_rest_events config peft_config sft_model peft_model merged
  | (_, Raise _, _) => True
  end.
Proof.
  unfold merge_lora_weight_into_model.
  unfold mbind at 1, Prog_bind at 1. cbn [bind call exec].
  destruct (h _ _ w) as [[tokenizer|e] w1]; [|done].
  unfold mbind at 1, Prog_bind at 1. rewrite exec_bind.
  destruct (exec h (load_sft_model _ _) w1)
    as [[t_load [sft_model|e]] w2] eqn:Hload; [|done].
  cbn. do 6 handler_step h.
  repeat match goal with u : unit |- _ => destruct u end.
  exists tokenizer, w1, t_load, sft_model, w2. split; [done|].
  by eexists _, _.
Qed.

(** Proving that every call of a program has a property. *)
Ltac all_calls_tac :=
  cbn;
  repeat match goal with
    | |- True => exact I
    | |- _ /\ _ => split
    | |- forall b : bool, _ => intros []; cbn
    | |- forall _, _ => intros ?
    end.

Lemma event_call_property (P : forall X, Call X -> Prop) (Q : event -> Prop) l :
  (forall X (c : Call X) (r : result X), P X c -> Q (Ev c r)) ->
  Forall (fun ev => P _ (ev_call ev)) l -> Forall Q l.
Proof.
  intros HPQ H. eapply Forall_impl; [exact H|]. intros [X c r]. apply HPQ.
Qed.

(** ** The save path of [train_dpo] *)

(** C2. Whatever configuration [train_dpo] is given, the one directory it
    saves the trained model or adapter to is the source model path with its
    last segment removed, followed by ['/lora/'] when an adapter
    configuration is supplied and by ['/dpo'] when none is: no call of
    [save_model] in any run names another directory; a run that returns has
    made that call once, on the trainer it trained, as its last action before
    the closing [print]; and the directory is what precedes the last ['/'] of
    the source path (nothing, when the path has no ['/']) plus the suffix. *)
Theorem train_dpo_save_dir W (h : handler W) (w : W) config peft_config :
  let suffix := if peft_config is Some _ then "/lora/" else "/dpo" in
  let dir := drop_last_segment (sft_model_file config) +:+ suffix in
  Forall (fun ev => forall d, trainer_saved_to ev = Some d -> d = dir)
    (trace_of h (train_dpo config peft_config) w)
  /\ (forall u, result_of h (train_dpo config peft_config) w = Ok u ->
      exists t dpo_trainer t',
        trace_of h (train_dpo config peft_config) w
        = t ++ [Ev (DPOTrainer_train dpo_trainer) (Ok ())] ++ t'
            ++ [Ev (save_model dpo_trainer dir) (Ok ());
                Ev (print ("save model or lora adapter to: " +:+ dir)) (Ok ())]
        /\ Forall (fun ev => trainer_saved_to ev = None) t
        /\ Forall (fun ev => trainer_saved_to ev = None) t')
  /\ (forall parent base,
      sft_model_file config = parent +:+ "/" +:+ base ->
      Py.str_contains slash base = false ->
      dir = parent +:+ suffix)
  /\ (Py.str_contains slash (sft_model_file config) = false -> dir = suffix).
Proof.
  intros suffix dir. split_and!.
  - set (P := fun X (c : Call X) =>
                match c with save_model _ d => d = dir | _ => True end).
    apply (event_call_property P).
    { intros X c r Hc d. destruct c; cbn; try done. unfold P in Hc. congruence. }
    apply (all_calls_trace h P).
    unfold train_dpo, load_train_and_ref, get_dataset. all_calls_tac.
    all: by destruct peft_config.
  - unfold result_of, trace_of.
    pose proof (train_dpo_returns W h w config peft_config) as H.
    pose proof (load_train_and_ref_returns W h) as Hl.
    destruct (exec h (train_dpo config peft_config) w) as [[t [u'|e]] w'];
      cbn; [|done].
    intros _ _.
    destruct H as (tokenizer & w1 & t_load & model_train & model_ref & w2 & Hload
                   & dataset & mapped & train_dataset & training_args
                   & dpo_trainer & log_history & loss_log & stamp & ->).
    specialize (Hl w1 config tokenizer). rewrite Hload in Hl.
    eexists (_ :: t_load ++ [_; _; _; _; _]), dpo_trainer, [_; _; _; _].
    split_and!.
    + unfold train_dpo_rest_events. cbn. rewrite <- !app_assoc. reflexivity.
    + constructor; [done|]. apply Forall_app. split; [|by repeat constructor].
      destruct Hl as [->|(? & ? & ? & ? & ->)]; by repeat constructor.
    + by repeat constructor.
  - intros parent base Hpath Hbase. unfold dir.
    by rewrite Hpath, drop_last_segment_dirname.
  - intros Hpath. unfold dir. by rewrite drop_last_segment_no_slash.
Qed.

(** A result that is not an exception is a value. *)
Lemma result_returned {A} (r : result A) :
  (if r is Ok _ then true else false) = true -> exists a, r = Ok a.
Proof. destruct r as [a|e]; [by exists a|done]. Qed.

(** A run is its log, its outcome and the world it leaves. *)
Lemma exec_eta {W A} (h : handler W) (p : Prog A) (w : W) :
  exec h p w = (trace_of h p w, result_of h p w, world_of h p w).
Proof.
  unfold trace_of, result_of, world_of. by destruct (exec h p w) as [[??]?].
Qed.

Lemma train_dpo_save_dir_witness :
  (exists t dpo_trainer t',
      trace_of Demo.run (train_dpo Demo.config (Some main_peft_config)) Demo.world
      = t ++ [Ev (DPOTrainer_train dpo_trainer) (Ok ())] ++ t'
          ++ [Ev (save_model dpo_trainer "./model_save/sft/lora/") (Ok ());
              Ev (print "save model or lora adapter to: ./model_save/sft/lora/")
                 (Ok ())]
      /\ Forall (fun ev => trainer_saved_to ev = None) t
      /\ Forall (fun ev => trainer_saved_to ev = None) t')
  /\ drop_last_segment (sft_model_file Demo.config) +:+ "/dpo"
     = "./model_save/sft/dpo".
Proof.
  destruct (train_dpo_save_dir _ Demo.run Demo.world Demo.config
              (Some main_peft_config)) as (_ & Hrun & _ & _).
  destruct (train_dpo_save_dir _ Demo.run Demo.world Demo.config None)
    as (_ & _ & Hdir & _).
  split.
  - apply (Hrun ()). vm_compute. reflexivity.
  - apply (Hdir "./model_save/sft" "sft_model.bin"); reflexivity.
Defined.

(** ** The paths of [merge_lora_weight_into_model] *)

(** C3. Whatever configuration [merge_lora_weight_into_model] is given, it
    reads the adapter from the base-model path minus its last segment plus
    ['/lora'], and writes the model to the base-model path plus
    ['.dpo_lora_merged']: no run reads an adapter from, or saves a model to,
    another path, and a run that returns has wrapped the base model with the
    adapter of that directory, loaded the adapter from it, merged, and saved
    to that file, in this order. *)
Theorem merge_paths W (h : handler W) (w : W) config peft_config :
  let adapter_dir := drop_last_segment (sft_model_file config) +:+ "/lora" in
  let merged_file := sft_model_file config +:+ ".dpo_lora_merged" in
  Forall (fun ev =>
            (forall d, adapter_read_from ev = Some d -> d = adapter_dir)
            /\ (forall d, model_saved_to ev = Some d -> d = merged_file))
    (trace_of h (merge_lora_weight_into_model config peft_config) w)
  /\ (forall u,
      result_of h (merge_lora_weight_into_model config peft_config) w = Ok u ->
      exists t sft_model peft_model merged,
        trace_of h (merge_lora_weight_into_model config peft_config) w
        = t ++ [Ev (PeftModel_from_pretrained sft_model adapter_dir
                      peft_config "adapter") (Ok peft_model);
                Ev (print ("Load adapter from dir: " +:+ adapter_dir)) (Ok ());
                Ev (load_adapter peft_model adapter_dir "adapter") (Ok ());
                Ev (merge_and_unload peft_model) (Ok merged);
                Ev (save_pretrained sft_model merged_file) (Ok ());
                Ev (print ("Save merged model file to: " +:+ merged_file))
                   (Ok ())]
        /\ Forall (fun ev => adapter_read_from ev = None
                             /\ model_saved_to ev = None) t)
  /\ (forall parent base,
      sft_model_file config = parent +:+ "/" +:+ base ->
      Py.str_contains slash base = false ->
      adapter_dir = parent +:+ "/lora")
  /\ (Py.str_contains slash (sft_model_file config) = false ->
      adapter_dir = "/lora").
Proof.
  intros adapter_dir merged_file. split_and!.
  - set (P := fun X (c : Call X) =>
                match c with
                | PeftModel_from_pretrained _ d _ _ => d = adapter_dir
                | load_adapter _ d _ => d = adapter_dir
                | save_pretrained _ d => d = merged_file
                | _ => True
                end).
    apply (event_call_property P).
    { intros X c r Hc. unfold P in Hc.
      destruct c; cbn; split; intros d; try done; congruence. }
    apply (all_calls_trace h P).
    unfold merge_lora_weight_into_model, load_sft_model. all_calls_tac.
    all: done.
  - unfold result_of, trace_of.
    pose proof (merge_returns W h w config peft_config) as H.
    pose proof (load_sft_model_returns W h) as Hl.
    destruct (exec h (merge_lora_weight_into_model config peft_config) w)
      as [[t [u'|e]] w']; cbn; [|done].
    intros _ _.
    destruct H as (tokenizer & w1 & t_load & sft_model & w2 & Hload
                   & peft_model & merged & ->).
    specialize (Hl w1 config tokenizer). rewrite Hload in Hl.
    exists (Ev (PreTrainedTokenizerFast_from_pretrained (tokenizer_dir config))
              (Ok tokenizer) :: t_load), sft_model, peft_model, merged.
    split; [done|].
    constructor; [done|].
    destruct Hl as [->|(? & ? & ? & ->)]; by repeat constructor.
  - intros parent base Hpath Hbase. unfold adapter_dir.
    by rewrite Hpath, drop_last_segment_dirname.
  - intros Hpath. unfold adapter_dir. by rewrite drop_last_segment_no_slash.
Qed.

Lemma merge_paths_witness :
  (exists t sft_model peft_model merged,
      trace_of Demo.run (merge_lora_weight_into_model Demo.config main_peft_config)
        Demo.world
      = t ++ [Ev (PeftModel_from_pretrained sft_model "./model_save/sft/lora"
                    main_peft_config "adapter") (Ok peft_model);
              Ev (print "Load adapter from dir: ./model_save/sft/lora") (Ok ());
              Ev (load_adapter peft_model "./model_save/sft/lora" "adapter") (Ok ());
              Ev (merge_and_unload peft_model) (Ok merged);
              Ev (save_pretrained sft_model
                    "./model_save/sft/sft_model.bin.dpo_lora_merged") (Ok ());
              Ev (print "Save merged model file to: ./model_save/sft/sft_model.bin.dpo_lora_merged")
                 (Ok ())]
      /\ Forall (fun ev => adapter_read_from ev = None
                           /\ model_saved_to ev = None) t)
  /\ drop_last_segment (sft_model_file Demo.config) +:+ "/lora"
     = "./model_save/sft/lora".
Proof.
  destruct (merge_paths _ Demo.run Demo.world Demo.config main_peft_config)
    as (_ & Hrun & Hdir & _).
  split.
  - apply (Hrun ()). vm_compute. reflexivity.
  - apply (Hdir "./model_save/sft" "sft_model.bin"); reflexivity.
Defined.

(** ** The adapter directory, written and read *)

Lemma path_components_trailing_slash p :
  path_components (p +:+ "/") = path_components p.
Proof.
  unfold path_components.
  change (p +:+ "/") with (p +:+ String slash "").
  rewrite PyFacts.str_split_app. cbn [Py.str_split].
  rewrite filter_app. cbn. rewrite decide_False by (intros H; by apply H).
  by rewrite app_nil_r.
Qed.

(** C9. For every configuration, the directory [train_dpo] saves an adapter
    to (when an adapter configuration is supplied) is the directory
    [merge_lora_weight_into_model] reads the adapter from with one ['/']
    appended, and nothing else differs: both paths are absolute or both
    relative, and they resolve through the same components. *)
Theorem lora_dir_written_is_lora_dir_read config peft_config :
  model_save_dir config (Some peft_config) = adapter_save_dir config +:+ "/"
  /\ same_file (model_save_dir config (Some peft_config))
       (adapter_save_dir config).
Proof.
  assert (Heq : model_save_dir config (Some peft_config)
                = adapter_save_dir config +:+ "/").
  { unfold model_save_dir, adapter_save_dir. cbn [suffixe].
    by rewrite PyFacts.append_assoc. }
  split; [done|]. rewrite Heq. split.
  - unfold adapter_save_dir.
    by destruct (drop_last_segment (sft_model_file config)).
  - apply path_components_trailing_slash.
Qed.

(** ** Exceptions *)

(** None of the three functions has a [try] statement. *)
Lemma get_dataset_catches_nothing split file cache_dir :
  catches_nothing (get_dataset split file cache_dir).
Proof. unfold get_dataset. all_calls_tac. Qed.

Lemma train_dpo_catches_nothing config peft_config :
  catches_nothing (train_dpo config peft_config).
Proof. unfold train_dpo, load_train_and_ref, get_dataset. all_calls_tac. Qed.

Lemma merge_catches_nothing config peft_config :
  catches_nothing (merge_lora_weight_into_model config peft_config).
Proof. unfold merge_lora_weight_into_model, load_sft_model. all_calls_tac. Qed.

(** The property is one of the program, not of every program: it fails where
    an exception is caught.  Were [get_dataset] called under a [try] that
    answers a failure with an empty dataset, the exception of the missing
    file would end nothing. *)
Lemma caught_exception_does_not_propagate :
  ~ propagates Demo.run
      (Try (get_dataset "train" "./data/missing.json" ".cache")
         (fun _ => Ret []) Ret)
      Demo.world.
Proof.
  intros [H _].
  destruct (H []
              (Ev (load_dataset "json" "./data/missing.json" "train" ".cache")
                 (Raise (FileNotFoundError "./data/missing.json")))
              [] (FileNotFoundError "./data/missing.json")) as [_ Hres].
  - vm_compute. reflexivity.
  - reflexivity.
  - vm_compute in Hres. discriminate Hres.
Qed.

(** C8. In [get_dataset], [train_dpo] and [merge_lora_weight_into_model],
    whatever the libraries do: when a call raises an exception, the function
    makes no further call and ends with that same exception; and the
    function ends with no exception but the one its last call raised.  This
    rests on the three functions catching nothing. *)
Theorem errors_propagate W (h : handler W) (w : W) :
  (forall split file cache_dir,
      propagates h (get_dataset split file cache_dir) w)
  /\ (forall config peft_config, propagates h (train_dpo config peft_config) w)
  /\ (forall config peft_config,
      propagates h (merge_lora_weight_into_model config peft_config) w).
Proof.
  split_and!; intros; apply exec_propagates.
  - apply get_dataset_catches_nothing.
  - apply train_dpo_catches_nothing.
  - apply merge_catches_nothing.
Qed.

Lemma errors_propagate_witness :
  result_of Demo.run (get_dataset "train" "./data/missing.json" ".cache") Demo.world
  = Raise (FileNotFoundError "./data/missing.json")
  /\ result_of Demo.run (train_dpo Demo.config None)
       (with_fs Z Z (delete "./model_save/sft/sft_model.bin" Demo.files) Demo.world)
     = Raise (FileNotFoundError "./model_save/sft/sft_model.bin").
Proof.
  split.
  - destruct (errors_propagate _ Demo.run Demo.world) as (Hget & _).
    destruct (Hget "train" "./data/missing.json" ".cache") as (Hraise & _).
    refine (proj2 (Hraise []
                     (Ev (load_dataset "json" "./data/missing.json" "train" ".cache")
                         (Raise (FileNotFoundError "./data/missing.json")))
                     [] _ _ _)).
    + vm_compute. reflexivity.
    + reflexivity.
  - destruct (errors_propagate _ Demo.run
                (with_fs Z Z (delete "./model_save/sft/sft_model.bin" Demo.files)
                   Demo.world)) as (_ & Htrain & _).
    destruct (Htrain Demo.config None) as (Hraise & _).
    refine (proj2 (Hraise
                     [Ev (PreTrainedTokenizerFast_from_pretrained "./model_save/tokenizer")
                         (Ok Demo.tokenizer);
                      Ev (os_path_isdir "./model_save/sft/sft_model.bin") (Ok false);
                      Ev T5ModelConfig_new (Ok (t5_model_config_at 0));
                      Ev (get_T5_config (t5_model_config_at 0) 29298 (Some 0) (Some 1))
                         (Ok (t5_config_at 0));
                      Ev (TextToTextModel_new (t5_config_at 0)) (Ok (model_at 0))]
                     (Ev (torch_load "./model_save/sft/sft_model.bin" "cpu")
                         (Raise (FileNotFoundError "./model_save/sft/sft_model.bin")))
                     [] _ _ _)).
    + vm_compute. reflexivity.
    + reflexivity.
Defined.

(** ** The [__main__] block *)

(** C4, as amended. The [__main__] block builds adapter settings and does
    not pass them: it first calls [LoraConfig] with the settings written in
    the block, then [DpoConfig()], then [train_dpo] with the configuration
    that returned and with no adapter configuration.  In every run the
    trainer is built without an adapter configuration, what is saved is
    saved under ['/dpo'], and after the settings are built no call into peft
    is made. *)
Theorem main_trains_without_adapter W (h : handler W) (w : W) :
  exec h main w
  = match h _ (LoraConfig_new main_peft_config) w with
    | (Ok peft_config, w1) =>
        match h _ DpoConfig_new w1 with
        | (Ok dpo_config, w2) =>
            let '(t, res, w3) := exec h (train_dpo dpo_config None) w2 in
            (Ev (LoraConfig_new main_peft_config) (Ok peft_config)
               :: Ev DpoConfig_new (Ok dpo_config) :: t, res, w3)
        | (Raise e, w2) =>
            ([Ev (LoraConfig_new main_peft_config) (Ok peft_config);
              Ev DpoConfig_new (Raise e)], Raise e, w2)
        end
    | (Raise e, w1) =>
        ([Ev (LoraConfig_new main_peft_config) (Raise e)], Raise e, w1)
    end
  /\ Forall (fun ev =>
               (forall kw, trainer_kw ev = Some kw -> dpo_peft_config kw = None)
               /\ (forall d, trainer_saved_to ev = Some d ->
                   exists config,
                     d = drop_last_segment (sft_model_file config) +:+ "/dpo"))
       (trace_of h main w)
  /\ Forall (fun ev => is_peft_call ev = false) (tail (trace_of h main w)).
Proof.
  assert (Hrun : exec h main w
    = match h _ (LoraConfig_new main_peft_config) w with
      | (Ok peft_config, w1) =>
          match h _ DpoConfig_new w1 with
          | (Ok dpo_config, w2) =>
              let '(t, res, w3) := exec h (train_dpo dpo_config None) w2 in
              (Ev (LoraConfig_new main_peft_config) (Ok peft_config)
                 :: Ev DpoConfig_new (Ok dpo_config) :: t, res, w3)
          | (Raise e, w2) =>
              ([Ev (LoraConfig_new main_peft_config) (Ok peft_config);
                Ev DpoConfig_new (Raise e)], Raise e, w2)
          end
      | (Raise e, w1) =>
          ([Ev (LoraConfig_new main_peft_config) (Raise e)], Raise e, w1)
      end).
  { change (exec h main w) with
      (match h _ (LoraConfig_new main_peft_config) w with
       | (Ok peft_config, w1) =>
           let '(t, res, w3) :=
             match h _ DpoConfig_new w1 with
             | (Ok dpo_config, w2) =>
                 let '(t, res, w3) := exec h (train_dpo dpo_config None) w2 in
                 (Ev DpoConfig_new (Ok dpo_config) :: t, res, w3)
             | (Raise e, w2) => ([Ev DpoConfig_new (Raise e)], Raise e, w2)
             end in
           (Ev (LoraConfig_new main_peft_config) (Ok peft_config) :: t, res, w3)
       | (Raise e, w1) =>
           ([Ev (LoraConfig_new main_peft_config) (Raise e)], Raise e, w1)
       end).
    destruct (h _ (LoraConfig_new main_peft_config) w) as [[pc|e] w1]; [|done].
    destruct (h _ DpoConfig_new w1) as [[cfg|e] w2]; [|done].
    by destruct (exec h (train_dpo cfg None) w2) as [[??]?]. }
  split_and!; [exact Hrun| |].
  - set (P := fun X (c : Call X) =>
                match c with
                | DPOTrainer_new kw => dpo_peft_config kw = None
                | save_model _ d =>
                    exists config,
                      d = drop_last_segment (sft_model_file config) +:+ "/dpo"
                | _ => True
                end).
    apply (event_call_property P).
    { intros X c r Hc. unfold P in Hc.
      destruct c; cbn; split_and!; try done; intros ? [= <-]; done. }
    apply (all_calls_trace h P).
    unfold main, train_dpo, load_train_and_ref, get_dataset. all_calls_tac.
    all: by eexists.
  - unfold trace_of. rewrite Hrun.
    destruct (h _ (LoraConfig_new main_peft_config) w) as [[pc|e] w1];
      [|by constructor].
    destruct (h _ DpoConfig_new w1) as [[cfg|e] w2]; [|by repeat constructor].
    set (P := fun X (c : Call X) =>
                match c with
                | LoraConfig_new _ | PeftModel_from_pretrained _ _ _ _
                | load_adapter _ _ _ | merge_and_unload _ => False
                | _ => True
                end).
    assert (Ht : Forall (fun ev => is_peft_call ev = false)
                   (trace_of h (train_dpo cfg None) w2)).
    { apply (event_call_property P).
      { intros X c r Hc. unfold P in Hc. by destruct c. }
      apply (all_calls_trace h P).
      unfold train_dpo, load_train_and_ref, get_dataset. all_calls_tac. }
    unfold trace_of in Ht.
    destruct (exec h (train_dpo cfg None) w2) as [[t res] w3].
    cbn. by constructor.
Qed.

(** C4, as stated, fails: on the concrete installation the trainer of
    [__main__] is built with no adapter configuration, where the block as
    specified would hand it the settings it built. *)
Lemma main_is_not_as_specified :
  ~ (forall W (h : handler W) (w : W),
        trace_of h main w = trace_of h main_as_specified w).
Proof.
  intros H. specialize (H _ Demo.run Demo.world).
  apply (f_equal (omap (fun ev => dpo_peft_config <$> trainer_kw ev))) in H.
  vm_compute in H. discriminate H.
Qed.

(** ** Loading the trainable and the reference model *)

(** C7. In [train_dpo], the model-loading step asks whether the configured
    model path is a directory.  When it is, the trainable and the reference
    model are each loaded from that directory; when it is not, each is built
    from the freshly made architecture configuration and has the state file
    at that path loaded onto it.  No run of [train_dpo] loads weights from
    another path, and a run that returns hands exactly this pair to the
    trainer. *)
Theorem train_dpo_loads_train_and_ref W (h : handler W) config :
  let path := sft_model_file config in
  (forall w tokenizer t model_train model_ref w',
      exec h (load_train_and_ref config tokenizer) w
        = (t, Ok (model_train, model_ref), w') ->
      t = [Ev (os_path_isdir path) (Ok true);
           Ev (TextToTextModel_from_pretrained path) (Ok model_train);
           Ev (TextToTextModel_from_pretrained path) (Ok model_ref)]
      \/ exists mc c sd sd',
          t = [Ev (os_path_isdir path) (Ok false);
               Ev T5ModelConfig_new (Ok mc);
               Ev (get_T5_config mc (tok_len tokenizer)
                     (pad_token_id tokenizer) (eos_token_id tokenizer)) (Ok c);
               Ev (TextToTextModel_new c) (Ok model_train);
               Ev (torch_load path "cpu") (Ok sd);
               Ev (load_state_dict model_train sd) (Ok ());
               Ev (TextToTextModel_new c) (Ok model_ref);
               Ev (torch_load path "cpu") (Ok sd');
               Ev (load_state_dict model_ref sd') (Ok ())])
  /\ (forall w peft_config,
      Forall (fun ev => forall p, model_loaded_from ev = Some p -> p = path)
        (trace_of h (train_dpo config peft_config) w))
  /\ (forall w peft_config t u w',
      exec h (train_dpo config peft_config) w = (t, Ok u, w') ->
      exists tokenizer w1 t_load model_train model_ref w2 t_rest,
        exec h (load_train_and_ref config tokenizer) w1
          = (t_load, Ok (model_train, model_ref), w2)
        /\ t = Ev (PreTrainedTokenizerFast_from_pretrained (tokenizer_dir config))
                  (Ok tokenizer) :: t_load ++ t_rest
        /\ omap (fun ev => (fun kw => (dpo_model kw, dpo_ref_model kw))
                             <$> trainer_kw ev) t
           = [(model_train, model_ref)]).
Proof.
  intros path. split_and!.
  - intros w tokenizer t model_train model_ref w' Hexec.
    pose proof (load_train_and_ref_returns W h w config tokenizer) as H.
    by rewrite Hexec in H.
  - intros w peft_config.
    set (P := fun X (c : Call X) =>
                match c with
                | TextToTextModel_from_pretrained p => p = path
                | torch_load p _ => p = path
                | _ => True
                end).
    apply (event_call_property P).
    { intros X c r Hc p. unfold P in Hc. destruct c; cbn; try done; congruence. }
    apply (all_calls_trace h P).
    unfold train_dpo, load_train_and_ref, get_dataset. all_calls_tac.
    all: done.
  - intros w peft_config t u w' Hexec.
    pose proof (train_dpo_returns W h w config peft_config) as H.
    rewrite Hexec in H.
    destruct H as (tokenizer & w1 & t_load & model_train & model_ref & w2 & Hload
                   & dataset & mapped & train_dataset & training_args
                   & dpo_trainer & log_history & loss_log & stamp & ->).
    eexists tokenizer, w1, t_load, model_train, model_ref, w2, _.
    split_and!; [done..|].
    pose proof (load_train_and_ref_returns W h w1 config tokenizer) as Hl.
    rewrite Hload in Hl.
    destruct Hl as [->|(? & ? & ? & ? & ->)]; reflexivity.
Qed.

Lemma train_dpo_loads_train_and_ref_witness :
  (exists mc c sd sd',
      trace_of Demo.run (load_train_and_ref Demo.config Demo.tokenizer) Demo.world
      = [Ev (os_path_isdir "./model_save/sft/sft_model.bin") (Ok false);
         Ev T5ModelConfig_new (Ok mc);
         Ev (get_T5_config mc 29298 (Some 0) (Some 1)) (Ok c);
         Ev (TextToTextModel_new c) (Ok (model_at 0));
         Ev (torch_load "./model_save/sft/sft_model.bin" "cpu") (Ok sd);
         Ev (load_state_dict (model_at 0) sd) (Ok ());
         Ev (TextToTextModel_new c) (Ok (model_at 2));
         Ev (torch_load "./model_save/sft/sft_model.bin" "cpu") (Ok sd');
         Ev (load_state_dict (model_at 2) sd') (Ok ())])
  /\ trace_of Demo.run (load_train_and_ref Demo.config_dir Demo.tokenizer) Demo.world
     = [Ev (os_path_isdir "./model_save/sft_dir/checkpoint") (Ok true);
        Ev (TextToTextModel_from_pretrained "./model_save/sft_dir/checkpoint")
           (Ok (model_at 0));
        Ev (TextToTextModel_from_pretrained "./model_save/sft_dir/checkpoint")
           (Ok (model_at 1))].
Proof.
  split.
  - destruct (train_dpo_loads_train_and_ref _ Demo.run Demo.config) as (H & _).
    destruct (H Demo.world Demo.tokenizer
                (trace_of Demo.run (load_train_and_ref Demo.config Demo.tokenizer)
                   Demo.world)
                (model_at 0) (model_at 2)
                (world_of Demo.run (load_train_and_ref Demo.config Demo.tokenizer)
                   Demo.world)) as [Hdir|Hfile].
    + vm_compute. reflexivity.
    + apply (f_equal (fun t => length t)) in Hdir. vm_compute in Hdir.
      discriminate Hdir.
    + exact Hfile.
  - vm_compute. reflexivity.
Defined.

(** ** The reference semantics: datasets *)

Lemma mapM_result_Ok {A B} (f : A -> result B) l k :
  mapM (M := result) f l = Ok k <-> Forall2 (fun x y => f x = Ok y) l k.
Proof.
  revert k. induction l as [|x l IH]; intros k; cbn.
  - split; [intros [= <-]; constructor | by inversion 1].
  - destruct (f x) as [y|e] eqn:Hx; cbn.
    + destruct (mapM f l) as [k'|e]; cbn.
      * split.
        -- intros [= <-]. constructor; [done|]. by apply IH.
        -- inversion 1 as [|? y' ? k'' Hy Hk]; subst.
           apply IH in Hk. unfold mret, result_ret. congruence.
      * split; [done|]. inversion 1 as [|? y' ? k'' Hy Hk]; subst.
        by apply IH in Hk.
    + split; [done|]. inversion 1; congruence.
Qed.

(** What [split_prompt_and_responses] returns. *)
Lemma split_prompt_and_responses_Ok sample out :
  split_prompt_and_responses sample = Ok out <->
  exists p c r,
    sample !! "prompt" = Some p /\ sample !! "chosen" = Some c
    /\ sample !! "rejected" = Some r
    /\ out = <["prompt" := p +:+ "[EOS]"]>
             (<["chosen" := c +:+ "[EOS]"]>
             (<["rejected" := r +:+ "[EOS]"]> ∅)).
Proof.
  unfold split_prompt_and_responses, getitem.
  destruct (sample !! "prompt") as [p|]; cbn;
    [|split; [done|by intros (?&?&?&?&_)]].
  destruct (sample !! "chosen") as [c|]; cbn;
    [|split; [done|by intros (?&?&?&_&?&_)]].
  destruct (sample !! "rejected") as [r|]; cbn;
    [|split; [done|by intros (?&?&?&_&_&?&_)]].
  split.
  - intros [= <-]. by exists p, c, r.
  - intros (?&?&?&[= <-]&[= <-]&[= <-]&->). done.
Qed.

(** A sample after the map: the three fields with the marker appended, the
    other columns as they were. *)
Lemma mapped_sample_fields (sample : Row) out :
  split_prompt_and_responses sample = Ok out ->
  (forall k, k ∈ eos_fields ->
     exists v, sample !! k = Some v /\ (out ∪ sample) !! k = Some (v +:+ "[EOS]"))
  /\ (forall k, k ∉ eos_fields -> (out ∪ sample) !! k = sample !! k).
Proof.
  intros (p & c & r & Hp & Hc & Hr & ->)%split_prompt_and_responses_Ok. split.
  - intros k Hk. unfold eos_fields in Hk.
    apply elem_of_cons in Hk as [->|Hk]; [exists p; by simplify_map_eq|].
    apply elem_of_cons in Hk as [->|Hk]; [exists c; by simplify_map_eq|].
    apply list_elem_of_singleton in Hk as ->. exists r. by simplify_map_eq.
  - intros k Hk. unfold eos_fields in Hk.
    rewrite !not_elem_of_cons in Hk. destruct Hk as (? & ? & ? & _).
    rewrite lookup_union_r; [done|]. by simplify_map_eq.
Qed.

Section Reference.

Context {Weights Adapter : Type}.
Variable init_weights : T5ConfigRef -> Z -> Weights.
Variable lora_merge : LoraConfig -> Weights -> Adapter -> Weights.
Variable rng_permutation : Z -> nat -> list nat.
Variable rng_step : Z -> Z.
Variable read_split : string -> Dataset -> result Dataset.
Variable oracle : forall X, Call X -> result X.

Local Abbreviation run :=
  (lib Weights Adapter init_weights lora_merge rng_permutation rng_step
     read_split oracle).

(** [get_dataset] under the reference semantics, in one expression: it
    reads the file, maps, and selects by the permutation of seed 2333. *)
Lemma get_dataset_result w split file cache_dir :
  result_of run (get_dataset split file cache_dir) w
  = match fs w !! file with
    | Some (FJsonLines rows) =>
        samples ← read_split split rows;
        mapped ← dataset_map split_prompt_and_responses samples;
        dataset_select (rng_permutation 2333 (length mapped)) mapped
    | _ => Raise (FileNotFoundError file)
    end.
Proof.
  unfold result_of, get_dataset. cbn.
  destruct (decide ("json" = "json")) as [_|?]; [|done].
  destruct (fs w !! file) as [[rows| | | |]|]; cbn; try done.
  destruct (read_split split rows) as [samples|]; cbn; [|done].
  destruct (dataset_map _ samples) as [mapped|]; cbn; [|done].
  by destruct (dataset_select _ mapped).
Qed.

Lemma dataset_map_Ok (samples mapped : Dataset) :
  dataset_map split_prompt_and_responses samples = Ok mapped ->
  Forall2 (fun sample m =>
             exists out, split_prompt_and_responses sample = Ok out
                         /\ m = out ∪ sample) samples mapped.
Proof.
  unfold dataset_map. rewrite mapM_result_Ok.
  intros H. eapply Forall2_impl; [exact H|]. clear H. intros sample m.
  unfold mbind, result_bind, mret, result_ret.
  destruct (split_prompt_and_responses sample) as [out|]; [|done].
  intros [= <-]. by exists out.
Qed.

Lemma dataset_map_cons function (sample : Row) (samples : Dataset) :
  dataset_map function (sample :: samples)
  = match function sample with
    | Ok out =>
        match dataset_map function samples with
        | Ok mapped => Ok ((out ∪ sample) :: mapped)
        | Raise e => Raise e
        end
    | Raise e => Raise e
    end.
Proof.
  unfold dataset_map. cbn. unfold mbind, result_bind, mret, result_ret.
  by destruct (function sample).
Qed.

Lemma dataset_map_total (samples : Dataset) :
  Forall (fun sample : Row =>
            forall k, k ∈ eos_fields -> is_Some (sample !! k)) samples ->
  exists mapped, dataset_map split_prompt_and_responses samples = Ok mapped.
Proof.
  induction 1 as [|sample samples Hs _ [mapped IH]].
  - by eexists.
  - destruct (Hs "prompt") as [p Hp]; [set_solver|].
    destruct (Hs "chosen") as [c Hc]; [set_solver|].
    destruct (Hs "rejected") as [r Hr]; [set_solver|].
    rewrite dataset_map_cons, IH.
    unfold split_prompt_and_responses, getitem.
    rewrite Hp, Hc, Hr. cbn. by eexists.
Qed.

Lemma dataset_select_Ok indices (ds out : Dataset) :
  dataset_select indices ds = Ok out <->
  Forall2 (fun i o => ds !! i = Some o) indices out.
Proof.
  unfold dataset_select. rewrite mapM_result_Ok.
  split; intros H; (eapply Forall2_impl; [exact H|]); clear H; intros i o.
  - simpl. destruct (ds !! i) as [row|]; [|done]. by intros [= ->].
  - simpl. by intros ->.
Qed.

Lemma dataset_select_total indices (ds : Dataset) :
  Forall (fun i => (i < length ds)%nat) indices ->
  exists out, dataset_select indices ds = Ok out.
Proof.
  intros H.
  assert (exists out, Forall2 (fun i o => ds !! i = Some o) indices out)
    as [out Hout].
  { induction H as [|i indices Hi _ [out IH]]; [by exists []|].
    apply lookup_lt_is_Some_2 in Hi as [o Ho].
    exists (o :: out). by constructor. }
  exists out. by apply dataset_select_Ok.
Qed.

(** C1. Let [get_dataset] read the samples of a JSON-lines file, under a
    generator whose permutation for seed 2333 is a permutation.  Then
    whenever it returns, it returns as many samples as it read; each of
    the three text fields of every sample it returns ends with ['[EOS]'];
    and every sample read has its produced sample, whose three text fields
    are those of the sample read with ['[EOS]'] appended.  It does return
    when every sample read has the three fields. *)
Theorem get_dataset_appends_eos w split file cache_dir rows
    (samples : Dataset) :
  fs w !! file = Some (FJsonLines rows) ->
  read_split split rows = Ok samples ->
  rng_permutation 2333 (length samples) ≡ₚ seq 0 (length samples) ->
  (forall out : Dataset,
      result_of run (get_dataset split file cache_dir) w = Ok out ->
      length out = length samples
      /\ Forall (fun o : Row =>
                   forall k, k ∈ eos_fields ->
                     exists v, o !! k = Some v
                               /\ Py.str_endswith v "[EOS]" = true) out
      /\ (forall j (sample : Row),
            samples !! j = Some sample ->
            exists i (o : Row),
              rng_permutation 2333 (length samples) !! i = Some j
              /\ out !! i = Some o
              /\ forall k, k ∈ eos_fields ->
                   exists v, sample !! k = Some v
                             /\ o !! k = Some (v +:+ "[EOS]")))
  /\ (Forall (fun sample : Row =>
                forall k, k ∈ eos_fields -> is_Some (sample !! k)) samples ->
      exists out, result_of run (get_dataset split file cache_dir) w = Ok out).
Proof.
  intros Hfile Hsplit Hperm. rewrite get_dataset_result, Hfile, Hsplit. cbn.
  split.
  - intros out Hout.
    destruct (dataset_map _ samples) as [mapped|] eqn:Hmap; cbn in Hout;
      [|done].
    apply dataset_map_Ok in Hmap.
    pose proof (Forall2_length _ _ _ Hmap) as Hlen. rewrite <- Hlen in Hout.
    apply dataset_select_Ok in Hout.
    pose proof (Forall2_length _ _ _ Hout) as Hlen'.
    rewrite (Permutation_length Hperm), length_seq in Hlen'.
    split_and!; [done| |].
    + apply Forall_forall. intros o Ho.
      apply list_elem_of_lookup in Ho as [i Ho].
      destruct (Forall2_lookup_r _ _ _ _ _ Hout Ho) as (j & _ & Hj).
      destruct (Forall2_lookup_r _ _ _ _ _ Hmap Hj)
        as (sample & _ & out' & Hsample & ->).
      intros k Hk.
      destruct (proj1 (mapped_sample_fields _ _ Hsample) k Hk) as (v & _ & ->).
      eexists. split; [done|]. apply PyFacts.str_endswith_app.
    + intros j sample Hj.
      assert (j ∈ rng_permutation 2333 (length samples)) as Hin.
      { rewrite Hperm. apply elem_of_seq. apply lookup_lt_Some in Hj. lia. }
      apply list_elem_of_lookup in Hin as [i Hi].
      destruct (Forall2_lookup_l _ _ _ _ _ Hout Hi) as (o & Ho & Hjo).
      destruct (Forall2_lookup_l _ _ _ _ _ Hmap Hj)
        as (m & Hm & out' & Hsample & ->).
      assert (o = out' ∪ sample) as -> by congruence.
      exists i, (out' ∪ sample). split_and!; [done..|].
      intros k Hk. apply (proj1 (mapped_sample_fields _ _ Hsample) k Hk).
  - intros Hfields.
    destruct (dataset_map_total _ Hfields) as [mapped Hmap].
    rewrite Hmap. cbn.
    apply dataset_map_Ok, Forall2_length in Hmap. rewrite <- Hmap.
    apply dataset_select_total. rewrite Hperm, <- Hmap.
    apply Forall_forall. intros i Hi%elem_of_seq. lia.
Qed.

(** C6. Two runs of [get_dataset] on the same JSON-lines file give the same
    outcome, the same samples in the same order or the same exception,
    whatever else differs between the two runs: the state of the global
    random generators, the objects in memory, the other files, the cache
    directory. *)
Theorem get_dataset_deterministic w1 w2 split file cache_dir cache_dir' :
  fs w1 !! file = fs w2 !! file ->
  result_of run (get_dataset split file cache_dir) w1
  = result_of run (get_dataset split file cache_dir') w2.
Proof. intros Hfile. by rewrite !get_dataset_result, Hfile. Qed.


(** ** The reference semantics: models *)

(** C10. Under the reference semantics, when the model-loading step of
    [train_dpo] returns, before anything is trained, the trainable and the
    reference model are two distinct objects that hold the same weights:
    those of the saved directory in the one branch, those of the state
    file in the other, whatever the freshly built models were initialised
    with. *)
Theorem reference_weights_equal_trainable w config tokenizer t
    model_train model_ref w' :
  exec run (load_train_and_ref config tokenizer) w
    = (t, Ok (model_train, model_ref), w') ->
  model_train <> model_ref
  /\ exists x,
      weights_of w' model_train = Some x
      /\ weights_of w' model_ref = Some x
      /\ (fs w !! sft_model_file config = Some (FModelDir x)
          \/ fs w !! sft_model_file config = Some (FStateDict x)).
Proof.
  unfold load_train_and_ref. cbn.
  destruct (fs w !! sft_model_file config) as [[rows|x|x|a|tk]|] eqn:Hfile; cbn;
    rewrite ?Hfile; cbn; try done.
  all: try (destruct (oracle _ T5ModelConfig_new) as [mc|]; cbn; [|done];
            destruct (oracle _ (get_T5_config mc _ _ _)) as [c|]; cbn; [|done];
            rewrite ?Hfile; cbn; try done).
  all: repeat (progress (cbn; unfold model_from_pretrained, model_new,
                           model_load_state_dict;
                         rewrite ?Hfile, ?lookup_insert_eq)).
  all: intros [= <- <- <- <-].
  all: (split; [intros [=]; lia|]); exists x; cbn.
  all: split_and!; eauto.
  all: try apply lookup_insert_eq.
  all: rewrite !lookup_insert_ne by lia; apply lookup_insert_eq.
Qed.

(** C5. Under the reference semantics, on an installation that holds the
    tokenizer, the base model (as a saved directory, or as a state file
    with the architecture configuration available) and the adapter,
    [merge_lora_weight_into_model] returns; the merge has returned the very
    object that was loaded as base model, so the adapter was folded into the
    base model in place; that object is the one saved; and the file written
    at the derived path holds the weights the base model has after the
    merge, the base weights with the adapter merged in. *)
Theorem merge_saves_merged_base_model w config peft_config tokenizer a x :
  fs w !! tokenizer_dir config = Some (FTokenizerDir tokenizer) ->
  fs w !! adapter_save_dir config = Some (FAdapterDir a) ->
  (fs w !! sft_model_file config = Some (FModelDir x)
   \/ (fs w !! sft_model_file config = Some (FStateDict x)
       /\ exists mc c,
           oracle _ T5ModelConfig_new = Ok mc
           /\ oracle _ (get_T5_config mc (tok_len tokenizer)
                          (pad_token_id tokenizer) (eos_token_id tokenizer))
              = Ok c)) ->
  exists t sft_model peft_model w',
    exec run (merge_lora_weight_into_model config peft_config) w
      = (t ++ merge_rest_events config peft_config sft_model peft_model
                sft_model,
         Ok (), w')
    /\ weights_of w' sft_model = Some (lora_merge peft_config x a)
    /\ fs w' !! save_merge_file config
       = Some (FModelDir (lora_merge peft_config x a)).
Proof.
  intros Htok Hadapter Hmodel.
  unfold merge_lora_weight_into_model, load_sft_model, merge_rest_events.
  remember (adapter_save_dir config) as adapter_dir.
  remember (save_merge_file config) as merged_file.
  cbn. rewrite Htok. cbn.
  destruct Hmodel as [Hfile|(Hfile & mc & c & Hmc & Hc)].
  - repeat (progress (cbn; unfold model_from_pretrained, model_save_pretrained;
                      rewrite ?Hfile, ?Hadapter, ?lookup_insert_eq)).
    eexists [_; _; _], _, _, _. split_and!; [reflexivity|..]; cbn.
    all: apply lookup_insert_eq.
  - repeat (progress (cbn; unfold model_new, model_load_state_dict,
                        model_save_pretrained;
                      rewrite ?Hfile, ?Hadapter, ?Hmc, ?Hc, ?lookup_insert_eq)).
    eexists [_; _; _; _; _; _; _], _, _, _.
    split_and!; [reflexivity|..]; cbn.
    all: apply lookup_insert_eq.
Qed.

End Reference.

Lemma get_dataset_appends_eos_witness :
  exists out : Dataset,
    result_of Demo.run (get_dataset "train" "./data/my_dpo_data.json" ".cache")
      Demo.world = Ok out
    /\ length out = 3%nat
    /\ Forall (fun o : Row =>
                 forall k, k ∈ eos_fields ->
                   exists v, o !! k = Some v
                             /\ Py.str_endswith v "[EOS]" = true) out.
Proof.
  pose proof (get_dataset_appends_eos Demo.init_weights Demo.lora_merge
                Demo.rng_permutation Demo.rng_step Demo.read_split Demo.oracle
                Demo.world "train" "./data/my_dpo_data.json" ".cache"
                Demo.rows Demo.rows) as H.
  destruct H as [Hout _].
  - reflexivity.
  - reflexivity.
  - apply (bool_decide_unpack _). vm_compute. exact I.
  - destruct (result_returned
                (result_of Demo.run
                   (get_dataset "train" "./data/my_dpo_data.json" ".cache")
                   Demo.world)) as [out Hrun]; [vm_compute; reflexivity|].
    destruct (Hout out Hrun) as (Hlen & Hall & _).
    exists out. split; [exact Hrun|]. split; [exact Hlen | exact Hall].
Defined.

Lemma get_dataset_deterministic_witness :
  result_of Demo.run (get_dataset "train" "./data/my_dpo_data.json" ".cache")
    Demo.world
  = result_of Demo.run (get_dataset "train" "./data/my_dpo_data.json" "/tmp/cache")
      Demo.world'.
Proof.
  apply (get_dataset_deterministic Demo.init_weights Demo.lora_merge
           Demo.rng_permutation Demo.rng_step Demo.read_split Demo.oracle).
  reflexivity.
Defined.

(** The seed matters: without it, [Demo.world] and [Demo.world'], which hold
    the same files and differ in the state of the global generator, shuffle
    differently. *)
Example shuffle_without_seed_depends_on_state :
  result_of Demo.run (call (Dataset_shuffle Demo.rows None)) Demo.world
  <> result_of Demo.run (call (Dataset_shuffle Demo.rows None)) Demo.world'.
Proof.
  intros H.
  apply (f_equal (fun res : result Dataset =>
                    match res with
                    | Ok ds => (fun row : Row => row !! "prompt") <$> ds
                    | Raise _ => []
                    end)) in H.
  vm_compute in H. discriminate H.
Qed.

Lemma reference_weights_equal_trainable_witness :
  exists x,
    weights_of (world_of Demo.run (load_train_and_ref Demo.config Demo.tokenizer)
                  Demo.world) (model_at 0) = Some x
    /\ weights_of (world_of Demo.run (load_train_and_ref Demo.config Demo.tokenizer)
                     Demo.world) (model_at 2) = Some x.
Proof.
  destruct (reference_weights_equal_trainable Demo.init_weights Demo.lora_merge
              Demo.rng_permutation Demo.rng_step Demo.read_split Demo.oracle
              Demo.world Demo.config Demo.tokenizer
              (trace_of Demo.run (load_train_and_ref Demo.config Demo.tokenizer)
                 Demo.world)
              (model_at 0) (model_at 2)
              (world_of Demo.run (load_train_and_ref Demo.config Demo.tokenizer)
                 Demo.world))
    as (_ & x & Htrain & Href & _).
  - vm_compute. reflexivity.
  - exists x. split; [exact Htrain | exact Href].
Defined.

Lemma merge_saves_merged_base_model_witness :
  fs (world_of Demo.run (merge_lora_weight_into_model Demo.config main_peft_config)
        Demo.world)
  !! "./model_save/sft/sft_model.bin.dpo_lora_merged" = Some (FModelDir 12).
Proof.
  destruct (merge_saves_merged_base_model Demo.init_weights Demo.lora_merge
              Demo.rng_permutation Demo.rng_step Demo.read_split Demo.oracle
              Demo.world Demo.config main_peft_config Demo.tokenizer 5 7)
    as (t & sft_model & peft_model & w' & Hexec & _ & Hfile).
  - reflexivity.
  - reflexivity.
  - right. split; [reflexivity|]. eexists _, _. split; reflexivity.
  - unfold world_of, Demo.run. rewrite Hexec. exact Hfile.
Defined.

(* ===================================================================== *)
(** * Part 6: further properties of the script *)
(* ===================================================================== *)

(** ** Paths *)

Lemma str_contains_app c s t :
  Py.str_contains c (s +:+ t) = Py.str_contains c s || Py.str_contains c t.
Proof.
  induction s as [|c' s IH]; [done|].
  rewrite PyFacts.append_cons. cbn. by rewrite IH, orb_assoc.
Qed.


Lemma count_non_slash_app s t :
  count_non_slash (s +:+ t) = (count_non_slash s + count_non_slash t)%nat.
Proof.
  induction s as [|c s IH]; [done|].
  rewrite PyFacts.append_cons. cbn. rewrite IH. lia.
Qed.

(** The segments of a path hold its characters other than ['/']. *)
Lemma str_split_lengths p :
  sum_list (String.length <$> Py.str_split slash p) = count_non_slash p.
Proof.
  induction p as [|c p IH]; [done|]. cbn.
  case_decide; cbn; [by rewrite IH|].
  rewrite <- IH. by destruct (Py.str_split slash p).
Qed.

Lemma path_components_lengths p :
  sum_list (String.length <$> path_components p) = count_non_slash p.
Proof.
  rewrite <- str_split_lengths. unfold path_components.
  induction (Py.str_split slash p) as [|seg l IH]; [done|].
  rewrite filter_cons. case_decide as Hseg; cbn; rewrite IH; [done|].
  destruct seg; [done|]. discriminate Hseg.
Qed.

(** The parent of a path is no longer than the path, in characters other
    than ['/']. *)
Lemma drop_last_segment_count p :
  (count_non_slash (drop_last_segment p) <= count_non_slash p)%nat.
Proof.
  destruct (path_cases p) as [Hp|(parent & base & -> & Hbase)].
  - rewrite drop_last_segment_no_slash by done. cbn. lia.
  - rewrite drop_last_segment_dirname by done.
    rewrite count_non_slash_app. lia.
Qed.

Lemma same_file_components p q :
  same_file p q -> count_non_slash p = count_non_slash q.
Proof.
  intros [_ H]. by rewrite <- !path_components_lengths, H.
Qed.

(** Appending to a path a suffix that has no ['/'] leaves its parent as it
    is. *)
Lemma drop_last_segment_suffix p suffix :
  Py.str_contains slash suffix = false ->
  drop_last_segment (p +:+ suffix) = drop_last_segment p.
Proof.
  intros Hs. destruct (path_cases p) as [Hp|(parent & base & -> & Hbase)].
  - rewrite !drop_last_segment_no_slash; [done..|].
    by rewrite str_contains_app, Hp, Hs.
  - rewrite !PyFacts.append_assoc.
    rewrite !drop_last_segment_dirname; [done..|].
    by rewrite str_contains_app, Hbase, Hs.
Qed.

(** X1. The expression ['/'.join(p.split('/')[0: -1])] removes from a path
    its last segment and the ['/'] before it, and nothing else: a path with
    no ['/'] gives the empty string, and any other path is what the
    expression gives, then ['/'], then a segment without ['/']. *)
Theorem drop_last_segment_decomposition p :
  (Py.str_contains slash p = false /\ drop_last_segment p = "")
  \/ (exists base,
        Py.str_contains slash base = false
        /\ p = drop_last_segment p +:+ "/" +:+ base).
Proof.
  destruct (path_cases p) as [Hp|(parent & base & -> & Hbase)].
  - left. split; [done|]. by apply drop_last_segment_no_slash.
  - right. exists base. split; [done|].
    by rewrite drop_last_segment_dirname.
Qed.

(** X2. The file [merge_lora_weight_into_model] writes is never one it
    reads, however the paths are spelled: the merged output is not the same
    file as the base model, nor as the adapter directory, nor as the
    directory [train_dpo] saves to. *)
Theorem merged_file_is_a_new_file config peft_config :
  ~ same_file (save_merge_file config) (sft_model_file config)
  /\ ~ same_file (save_merge_file config) (adapter_save_dir config)
  /\ ~ same_file (save_merge_file config) (model_save_dir config peft_config).
Proof.
  pose proof (drop_last_segment_count (sft_model_file config)) as Hparent.
  assert (count_non_slash ".dpo_lora_merged" = 16%nat) as Hmerged
    by (vm_compute; reflexivity).
  assert (count_non_slash "/lora" = 4%nat) as Hlora
    by (vm_compute; reflexivity).
  assert (count_non_slash (suffixe peft_config) <= 4)%nat as Hsuffixe
    by (destruct peft_config; vm_compute; lia).
  unfold save_merge_file, adapter_save_dir, model_save_dir.
  split_and!; intros H%same_file_components;
    rewrite !count_non_slash_app in H; lia.
Qed.


(** X4. Pointing the configuration at the merged model changes none of the
    derived directories: the adapter directory and the directory [train_dpo]
    saves to are those of the base model. *)
Theorem merged_model_keeps_directories config config' peft_config :
  sft_model_file config' = save_merge_file config ->
  adapter_save_dir config' = adapter_save_dir config
  /\ model_save_dir config' peft_config = model_save_dir config peft_config.
Proof.
  intros H. unfold adapter_save_dir, model_save_dir, save_merge_file in *.
  by rewrite H, drop_last_segment_suffix.
Qed.

Lemma merged_model_keeps_directories_witness :
  adapter_save_dir demo_config_merged = "./model_save/sft/lora"
  /\ model_save_dir demo_config_merged None = "./model_save/sft/dpo".
Proof.
  apply (merged_model_keeps_directories Demo.config demo_config_merged None).
  reflexivity.
Defined.

(** ** The map function *)

(** X5. When [split_prompt_and_responses] returns, the dict it returns has
    the three keys [prompt], [chosen], [rejected] and no other, whatever
    other columns the sample has. *)
Theorem split_prompt_and_responses_keys sample out :
  split_prompt_and_responses sample = Ok out ->
  dom out = {[ "prompt"; "chosen"; "rejected" ]}.
Proof.
  intros (p & c & r & Hp & Hc & Hr & ->)%split_prompt_and_responses_Ok.
  rewrite !dom_insert_L, dom_empty_L. set_solver.
Qed.

Lemma split_prompt_and_responses_keys_witness :
  exists out : Row,
    split_prompt_and_responses (<["extra" := "x"]> (Demo.sample "p0" "c0" "r0"))
    = Ok out
    /\ dom out = {[ "prompt"; "chosen"; "rejected" ]}.
Proof.
  destruct (result_returned
              (split_prompt_and_responses
                 (<["extra" := "x"]> (Demo.sample "p0" "c0" "r0"))))
    as [out Hout]; [vm_compute; reflexivity|].
  exists out. split; [exact Hout|].
  exact (split_prompt_and_responses_keys _ out Hout).
Defined.

(** X6. [split_prompt_and_responses] raises exactly when one of the three
    fields is missing, and what it raises is the [KeyError] of the first
    missing one, in the order prompt, chosen, rejected. *)
Theorem split_prompt_and_responses_key_error (sample : Row) e :
  split_prompt_and_responses sample = Raise e <->
  (sample !! "prompt" = None /\ e = KeyError "prompt")
  \/ (is_Some (sample !! "prompt") /\ sample !! "chosen" = None
      /\ e = KeyError "chosen")
  \/ (is_Some (sample !! "prompt") /\ is_Some (sample !! "chosen")
      /\ sample !! "rejected" = None /\ e = KeyError "rejected").
Proof.
  unfold split_prompt_and_responses, getitem.
  destruct (sample !! "prompt") as [p|]; cbn.
  - destruct (sample !! "chosen") as [c|]; cbn.
    + destruct (sample !! "rejected") as [r|]; cbn.
      * split; [done|]. intros [[? _]|[(_ & ? & _)|(_ & _ & ? & _)]]; done.
      * split.
        -- intros [= <-]. right. right. by split_and!.
        -- intros [[? _]|[(_ & ? & _)|(_ & _ & _ & ->)]]; done.
    + split.
      * intros [= <-]. right. left. by split_and!.
      * intros [[? _]|[(_ & _ & ->)|(_ & [? ?] & _)]]; done.
  - split.
    + intros [= <-]. by left.
    + intros [[_ ->]|[([? ?] & _)|([? ?] & _)]]; done.
Qed.

(** ** The order of calls *)

Lemma preceded_check_sound_gen P Q seen t :
  preceded_check P Q seen t = true ->
  forall t1 ev t2,
    t = t1 ++ ev :: t2 -> Q ev = true ->
    seen = true \/ Exists (fun e => P e = true) t1.
Proof.
  revert seen. induction t as [|e t IH]; intros seen Hcheck t1 ev t2 Heq HQ.
  - by destruct t1.
  - cbn in Hcheck. apply andb_prop in Hcheck as [Hhere Hrest].
    destruct t1 as [|e' t1]; cbn in Heq; injection Heq as -> ->.
    + rewrite HQ in Hhere. cbn in Hhere. by left.
    + destruct (IH _ Hrest t1 ev t2 eq_refl HQ) as [Hseen|Hex].
      * apply orb_prop in Hseen as [->|HP]; [by left|].
        right. by apply Exists_cons_hd.
      * right. by apply Exists_cons_tl.
Qed.

Lemma preceded_check_sound P Q t :
  preceded_check P Q false t = true -> preceded P Q t.
Proof.
  intros Hcheck t1 ev t2 Heq HQ.
  by destruct (preceded_check_sound_gen P Q false t Hcheck t1 ev t2 Heq HQ).
Qed.

(** Running a program call by call, whatever the handler answers. *)
Ltac run_all h :=
  repeat (cbn;
          match goal with
          | |- context [h ?X ?c ?w] => destruct (h X c w) as [[?|?] ?]
          | |- context [if ?b then _ else _] => is_var b; destruct b
          end);
  cbn.

(** X7. In every run of [train_dpo], whatever the libraries do, the calls
    the function makes come in this order: it calls the training only after
    the shuffled dataset was returned to it, it calls [to_csv] for the loss
    log only after the training returned, and it calls [save_model] only
    after the training returned and the [to_csv] of the loss log returned.
    This is the order of the function's own calls; what the trainer writes
    by itself while it trains is not among them. *)
Theorem train_dpo_saves_after_training W (h : handler W) (w : W)
    config peft_config :
  let t := trace_of h (train_dpo config peft_config) w in
  preceded (returned_from is_shuffle) (called is_train) t
  /\ preceded (returned_from is_train) (called is_to_csv) t
  /\ preceded (returned_from is_train) (called is_save_model) t
  /\ preceded (returned_from is_to_csv) (called is_save_model) t.
Proof.
  cbn zeta. split_and!; apply preceded_check_sound;
    unfold trace_of, train_dpo, load_train_and_ref, get_dataset;
    run_all h; reflexivity.
Qed.


(** X9. Each function keeps to its own libraries, whatever they do:
    [train_dpo] never calls into peft and never calls [save_pretrained];
    [merge_lora_weight_into_model] never reads a dataset and never builds,
    runs or saves a trainer; [get_dataset] calls nothing but datasets. *)
Theorem functions_keep_to_their_libraries W (h : handler W) (w : W) :
  (forall config peft_config,
      Forall (fun ev => is_peft_call ev = false
                        /\ called is_save_pretrained ev = false)
        (trace_of h (train_dpo config peft_config) w))
  /\ (forall config peft_config,
      Forall (fun ev => called is_dataset ev = false
                        /\ called is_training ev = false)
        (trace_of h (merge_lora_weight_into_model config peft_config) w))
  /\ (forall split file cache_dir,
      Forall (fun ev => called is_dataset ev = true)
        (trace_of h (get_dataset split file cache_dir) w)).
Proof.
  split_and!.
  - intros config peft_config.
    set (P := fun X (c : Call X) =>
                match c with
                | LoraConfig_new _ | PeftModel_from_pretrained _ _ _ _
                | load_adapter _ _ _ | merge_and_unload _
                | save_pretrained _ _ => False
                | _ => True
                end).
    apply (event_call_property P).
    { intros X c r Hc. unfold P in Hc. by destruct c. }
    apply (all_calls_trace h P).
    unfold train_dpo, load_train_and_ref, get_dataset. all_calls_tac.
  - intros config peft_config.
    set (P := fun X (c : Call X) =>
                is_dataset X c = false /\ is_training X c = false).
    apply (event_call_property P).
    { intros X c r Hc. exact Hc. }
    apply (all_calls_trace h P).
    unfold merge_lora_weight_into_model, load_sft_model. all_calls_tac.
    all: unfold P; by repeat split.
  - intros split file cache_dir.
    set (P := fun X (c : Call X) => is_dataset X c = true).
    apply (event_call_property P).
    { intros X c r Hc. exact Hc. }
    apply (all_calls_trace h P).
    unfold get_dataset. all_calls_tac.
    all: unfold P; reflexivity.
Qed.

(** X10. In a run of [train_dpo] that returns, one trainer is built, and it
    is built from what the earlier steps returned: the tokenizer loaded in
    step 1, the dataset read from [config.dpo_train_file] (split ["train"]),
    mapped and shuffled with seed 2333, and the training arguments object;
    it gets no evaluation dataset, and the three length limits are all
    [config.max_seq_len]. *)
Theorem train_dpo_trainer_inputs W (h : handler W) (w : W) config peft_config
    t u w' :
  exec h (train_dpo config peft_config) w = (t, Ok u, w') ->
  exists tokenizer dataset mapped train_dataset training_args kw,
    head t = Some (Ev (PreTrainedTokenizerFast_from_pretrained
                         (tokenizer_dir config)) (Ok tokenizer))
    /\ Ev (load_dataset "json" (dpo_train_file config) "train" ".cache")
          (Ok dataset) ∈ t
    /\ Ev (Dataset_map split_prompt_and_responses dataset) (Ok mapped) ∈ t
    /\ Ev (Dataset_shuffle mapped (Some 2333)) (Ok train_dataset) ∈ t
    /\ Ev (TrainingArguments_new (training_arguments config))
          (Ok training_args) ∈ t
    /\ omap trainer_kw t = [kw]
    /\ dpo_tokenizer kw = tokenizer
    /\ dpo_train_dataset kw = train_dataset
    /\ dpo_args kw = training_args
    /\ dpo_eval_dataset kw = None
    /\ dpo_peft_config kw = peft_config
    /\ dpo_max_length kw = max_seq_len config
    /\ dpo_max_target_length kw = max_seq_len config
    /\ dpo_max_prompt_length kw = max_seq_len config.
Proof.
  intros Hexec.
  pose proof (train_dpo_returns W h w config peft_config) as H.
  rewrite Hexec in H.
  destruct H as (tokenizer & w1 & t_load & model_train & model_ref & w2 & Hload
                 & dataset & mapped & train_dataset & training_args
                 & dpo_trainer & log_history & loss_log & stamp & ->).
  pose proof (load_train_and_ref_returns W h w1 config tokenizer) as Hl.
  rewrite Hload in Hl.
  eexists tokenizer, dataset, mapped, train_dataset, training_args, _.
  split; [done|].
  do 4 (split;
        [apply list_elem_of_further, elem_of_app; right;
         unfold train_dpo_rest_events;
         repeat first [apply list_elem_of_here | apply list_elem_of_further]|]).
  split; [destruct Hl as [->|(? & ? & ? & ? & ->)]; reflexivity|].
  by split_and!.
Qed.

Lemma train_dpo_trainer_inputs_witness :
  exists kw,
    omap trainer_kw (trace_of Demo.run (train_dpo Demo.config None) Demo.world)
    = [kw]
    /\ dpo_eval_dataset kw = None
    /\ dpo_max_length kw = 320.
Proof.
  assert (Hres : result_of Demo.run (train_dpo Demo.config None) Demo.world
                 = Ok ()) by (vm_compute; reflexivity).
  destruct (train_dpo_trainer_inputs _ Demo.run Demo.world Demo.config None
              (trace_of Demo.run (train_dpo Demo.config None) Demo.world) ()
              (world_of Demo.run (train_dpo Demo.config None) Demo.world))
    as (tokenizer & dataset & mapped & train_dataset & training_args & kw
        & _ & _ & _ & _ & _ & Hkw & _ & _ & _ & Heval & _ & Hlen & _).
  - rewrite exec_eta, Hres. reflexivity.
  - exists kw. split_and!; [exact Hkw | exact Heval | exact Hlen].
Defined.

(** ** The reference semantics, further *)

(** Selecting by a permutation of the indices rearranges the rows. *)
Lemma lookup_all_indices {A} (l : list A) :
  omap (fun i => l !! i) (seq 0 (length l)) = l.
Proof.
  induction l as [|x l IH] using rev_ind; [done|].
  rewrite length_app. cbn. rewrite Nat.add_1_r, seq_S, omap_app. cbn.
  rewrite lookup_app_r, Nat.sub_diag by lia. cbn.
  f_equal. rewrite <- IH at 2. apply list_omap_ext.
  apply Forall_Forall2_diag, Forall_forall.
  intros i Hi%elem_of_seq. apply lookup_app_l. lia.
Qed.

Lemma select_permutation {A} (l out : list A) indices :
  Forall2 (fun i o => l !! i = Some o) indices out ->
  indices ≡ₚ seq 0 (length l) ->
  out ≡ₚ l.
Proof.
  intros Hsel Hperm.
  assert (out = omap (fun i => l !! i) indices) as ->.
  { clear Hperm. induction Hsel as [|i o indices out Hi _ IH]; [done|].
    cbn. rewrite Hi. cbn. by f_equal. }
  by rewrite Hperm, lookup_all_indices.
Qed.

Section ReferenceMore.

Context {Weights Adapter : Type}.
Variable init_weights : T5ConfigRef -> Z -> Weights.
Variable lora_merge : LoraConfig -> Weights -> Adapter -> Weights.
Variable rng_permutation : Z -> nat -> list nat.
Variable rng_step : Z -> Z.
Variable read_split : string -> Dataset -> result Dataset.
Variable oracle : forall X, Call X -> result X.

Local Abbreviation run :=
  (lib Weights Adapter init_weights lora_merge rng_permutation rng_step
     read_split oracle).

(** X12. Under the reference semantics, let [get_dataset] read samples that
    all have the three text fields, with a generator whose permutation for
    seed 2333 is a permutation.  Then it returns, and what it returns is a
    rearrangement of the samples read, each with the marker appended to its
    three fields and its other columns as they were: no sample is lost,
    repeated or otherwise altered. *)
Theorem get_dataset_rearranges w split file cache_dir rows
    (samples : Dataset) :
  fs w !! file = Some (FJsonLines rows) ->
  read_split split rows = Ok samples ->
  rng_permutation 2333 (length samples) ≡ₚ seq 0 (length samples) ->
  Forall (fun sample : Row =>
            forall f, f ∈ eos_fields -> is_Some (sample !! f)) samples ->
  exists out mapped : Dataset,
    result_of run (get_dataset split file cache_dir) w = Ok out
    /\ out ≡ₚ mapped
    /\ Forall2 (fun (sample m : Row) =>
                  (forall f, f ∈ eos_fields ->
                     exists v, sample !! f = Some v
                               /\ m !! f = Some (v +:+ "[EOS]"))
                  /\ (forall f, f ∉ eos_fields -> m !! f = sample !! f))
         samples mapped.
Proof.
  intros Hfile Hsplit Hperm Hfields.
  rewrite get_dataset_result, Hfile, Hsplit. cbn.
  assert (exists mapped,
             dataset_map split_prompt_and_responses samples = Ok mapped)
    as [mapped Hmap] by by apply dataset_map_total.
  rewrite Hmap. cbn. apply dataset_map_Ok in Hmap.
  pose proof (Forall2_length _ _ _ Hmap) as Hlen.
  assert (exists out,
             dataset_select (rng_permutation 2333 (length mapped)) mapped
             = Ok out) as [out Hout].
  { apply dataset_select_total. rewrite <- Hlen, Hperm.
    apply Forall_forall. intros i Hi%elem_of_seq. lia. }
  exists out, mapped. split_and!; [done| |].
  - rewrite Hlen in Hperm. apply dataset_select_Ok in Hout.
    by eapply select_permutation.
  - eapply Forall2_impl; [exact Hmap|].
    intros sample m (out' & Hsample & ->).
    apply (mapped_sample_fields _ _ Hsample).
Qed.

(** A call of the reference semantics changes no file but the one a
    [save_pretrained] names. *)
Lemma lib_call_frame p X (c : Call X) w :
  writes_elsewhere p X c ->
  fs (run X c w).2 !! p = fs w !! p.
Proof.
  intros Hc.
  destruct c; cbn in *;
    unfold dataset_shuffle, model_from_pretrained, model_new,
      model_load_state_dict, model_save_pretrained, alloc_model;
    repeat case_match; cbn; simplify_eq; try done.
  by rewrite lookup_insert_ne.
Qed.

Lemma lib_frame p {A} (prog : Prog A) w :
  all_calls (writes_elsewhere p) prog ->
  fs (world_of run prog w) !! p = fs w !! p.
Proof.
  unfold world_of. revert w.
  induction prog as [A a|A X c k IH|A X body IHb except IHe k IH];
    intros w Hprog; cbn; [done| |].
  - destruct Hprog as [Hc Hk].
    pose proof (lib_call_frame p X c w Hc) as Hframe.
    destruct (run X c w) as [[x|e] w1]; cbn in *; [|done].
    specialize (IH x w1 (Hk x)).
    destruct (exec run (k x) w1) as [[t res] w2]. cbn in *. congruence.
  - destruct Hprog as (Hb & He & Hk). specialize (IHb w Hb).
    destruct (exec run body w) as [[t [x|e]] w1]; cbn in IHb.
    + specialize (IH x w1 (Hk x)).
      destruct (exec run (k x) w1) as [[t' res] w2]. cbn in *. congruence.
    + specialize (IHe e w1 (He e)).
      destruct (exec run (except e) w1) as [[t' [x|e']] w2]; cbn in IHe.
      * specialize (IH x w2 (Hk x)).
        destruct (exec run (k x) w2) as [[t'' res] w3]. cbn in *. congruence.
      * cbn. congruence.
Qed.

(** X13. Under the reference semantics, [merge_lora_weight_into_model]
    changes no file but the merged output, whether it returns or raises:
    every other path holds after the run what it held before, and so do, in
    particular, the base model and the adapter directory. *)
Theorem merge_changes_one_file w config peft_config :
  let w' := world_of run (merge_lora_weight_into_model config peft_config) w in
  (forall p, p <> save_merge_file config -> fs w' !! p = fs w !! p)
  /\ fs w' !! sft_model_file config = fs w !! sft_model_file config
  /\ fs w' !! adapter_save_dir config = fs w !! adapter_save_dir config.
Proof.
  cbn zeta.
  assert (Hframe : forall p, p <> save_merge_file config ->
            fs (world_of run (merge_lora_weight_into_model config peft_config) w)
            !! p = fs w !! p).
  { intros p Hp. apply lib_frame.
    unfold merge_lora_weight_into_model, load_sft_model. all_calls_tac.
    all: intros Heq; apply Hp; symmetry; exact Heq. }
  assert (count_non_slash ".dpo_lora_merged" = 16%nat) as Hmerged
    by (vm_compute; reflexivity).
  assert (count_non_slash "/lora" = 4%nat) as Hlora
    by (vm_compute; reflexivity).
  pose proof (drop_last_segment_count (sft_model_file config)) as Hparent.
  split_and!; [done|apply Hframe..];
    unfold save_merge_file, adapter_save_dir;
    intros H%(f_equal count_non_slash);
    rewrite !count_non_slash_app in H; lia.
Qed.

End ReferenceMore.

Lemma get_dataset_rearranges_witness :
  exists out mapped : Dataset,
    result_of Demo.run (get_dataset "train" "./data/my_dpo_data.json" ".cache")
      Demo.world = Ok out
    /\ out ≡ₚ mapped
    /\ length mapped = 3%nat.
Proof.
  destruct (get_dataset_rearranges Demo.init_weights Demo.lora_merge
              Demo.rng_permutation Demo.rng_step Demo.read_split Demo.oracle
              Demo.world "train" "./data/my_dpo_data.json" ".cache"
              Demo.rows Demo.rows)
    as (out & mapped & Hrun & Hperm & Hall).
  - reflexivity.
  - reflexivity.
  - apply (bool_decide_unpack _). vm_compute. exact I.
  - repeat (constructor;
            [intros f Hf; unfold eos_fields in Hf;
             repeat (apply elem_of_cons in Hf as [->|Hf];
                     [apply (bool_decide_unpack _); vm_compute; exact I|]);
             by apply elem_of_nil in Hf|]).
    constructor.
  - exists out, mapped. split_and!; [exact Hrun | exact Hperm |].
    symmetry. exact (Forall2_length _ _ _ Hall).
Defined.

(** ** A trailing slash *)



(** ** The calls of [get_dataset] and the loss log *)

(** X15. A run of [get_dataset] that returns has made three calls, each fed
    with what the one before returned: [load_dataset] with the builder
    ['json'] and the file, split and cache directory it was given, the map
    with [split_prompt_and_responses] over the loaded dataset, and the
    shuffle with seed 2333 of the mapped dataset; what the shuffle returned
    is what [get_dataset] returns. *)
Theorem get_dataset_calls W (h : handler W) (w : W) split file cache_dir
    t out w' :
  exec h (get_dataset split file cache_dir) w = (t, Ok out, w') ->
  exists dataset mapped,
    t = [Ev (load_dataset "json" file split cache_dir) (Ok dataset);
         Ev (Dataset_map split_prompt_and_responses dataset) (Ok mapped);
         Ev (Dataset_shuffle mapped (Some 2333)) (Ok out)].
Proof.
  assert (H : match exec h (get_dataset split file cache_dir) w with
              | (t, Ok out, _) =>
                  exists dataset mapped,
                    t = [Ev (load_dataset "json" file split cache_dir) (Ok dataset);
                         Ev (Dataset_map split_prompt_and_responses dataset)
                            (Ok mapped);
                         Ev (Dataset_shuffle mapped (Some 2333)) (Ok out)]
              | (_, Raise _, _) => True
              end).
  { unfold get_dataset. cbn. do 3 handler_step h. by eexists _, _. }
  intros Hexec. by rewrite Hexec in H.
Qed.

Lemma get_dataset_calls_witness :
  exists dataset mapped out,
    trace_of Demo.run (get_dataset "train" "./data/my_dpo_data.json" ".cache")
      Demo.world
    = [Ev (load_dataset "json" "./data/my_dpo_data.json" "train" ".cache")
          (Ok dataset);
       Ev (Dataset_map split_prompt_and_responses dataset) (Ok mapped);
       Ev (Dataset_shuffle mapped (Some 2333)) (Ok out)].
Proof.
  destruct (result_returned
              (result_of Demo.run
                 (get_dataset "train" "./data/my_dpo_data.json" ".cache")
                 Demo.world)) as [out Hrun]; [vm_compute; reflexivity|].
  destruct (get_dataset_calls _ Demo.run Demo.world "train"
              "./data/my_dpo_data.json" ".cache"
              (trace_of Demo.run
                 (get_dataset "train" "./data/my_dpo_data.json" ".cache")
                 Demo.world)
              out
              (world_of Demo.run
                 (get_dataset "train" "./data/my_dpo_data.json" ".cache")
                 Demo.world))
    as (dataset & mapped & Ht).
  - rewrite exec_eta, Hrun. reflexivity.
  - exists dataset, mapped, out. exact Ht.
Defined.

(** X16. The loss log of [train_dpo] goes to the [./logs] directory of the
    working directory, whatever the configuration says (its [log_dir]
    included): every [to_csv] of every run writes to
    ['./logs/dpo_train_log_<stamp>.csv'], and in a run that returns
    [<stamp>] is what [time.strftime('%Y%m%d-%H%M')] returned in that run, so
    two runs within the same minute write the same file. *)
Theorem train_dpo_log_path W (h : handler W) (w : W) config peft_config :
  Forall (fun ev => forall path, log_written_to ev = Some path ->
                      exists stamp,
                        path = "./logs/dpo_train_log_" +:+ stamp +:+ ".csv")
    (trace_of h (train_dpo config peft_config) w)
  /\ (forall u, result_of h (train_dpo config peft_config) w = Ok u ->
      exists stamp loss_log,
        Ev (time_strftime "%Y%m%d-%H%M") (Ok stamp)
          ∈ trace_of h (train_dpo config peft_config) w
        /\ omap log_written_to (trace_of h (train_dpo config peft_config) w)
           = ["./logs/dpo_train_log_" +:+ stamp +:+ ".csv"]
        /\ Ev (to_csv loss_log ("./logs/dpo_train_log_" +:+ stamp +:+ ".csv"))
              (Ok ())
          ∈ trace_of h (train_dpo config peft_config) w).
Proof.
  split.
  - set (P := fun X (c : Call X) =>
                match c with
                | to_csv _ path =>
                    exists stamp,
                      path = "./logs/dpo_train_log_" +:+ stamp +:+ ".csv"
                | _ => True
                end).
    apply (event_call_property P).
    { intros X c r Hc path. unfold P in Hc.
      destruct c; cbn; try done. by intros [= <-]. }
    apply (all_calls_trace h P).
    unfold train_dpo, load_train_and_ref, get_dataset. all_calls_tac.
    all: by eexists.
  - unfold result_of, trace_of.
    pose proof (train_dpo_returns W h w config peft_config) as H.
    pose proof (load_train_and_ref_returns W h) as Hl.
    destruct (exec h (train_dpo config peft_config) w) as [[t [u'|e]] w'];
      cbn; [|done].
    intros _ _.
    destruct H as (tokenizer & w1 & t_load & model_train & model_ref & w2 & Hload
                   & dataset & mapped & train_dataset & training_args
                   & dpo_trainer & log_history & loss_log & stamp & ->).
    specialize (Hl w1 config tokenizer). rewrite Hload in Hl.
    exists stamp, loss_log. split_and!.
    + apply list_elem_of_further, elem_of_app; right.
      unfold train_dpo_rest_events.
      repeat first [apply list_elem_of_here | apply list_elem_of_further].
    + destruct Hl as [->|(? & ? & ? & ? & ->)]; reflexivity.
    + apply list_elem_of_further, elem_of_app; right.
      unfold train_dpo_rest_events.
      repeat first [apply list_elem_of_here | apply list_elem_of_further].
Qed.

Lemma train_dpo_log_path_witness :
  exists stamp,
    omap log_written_to
      (trace_of Demo.run (train_dpo Demo.config None) Demo.world)
    = ["./logs/dpo_train_log_" +:+ stamp +:+ ".csv"].
Proof.
  destruct (train_dpo_log_path _ Demo.run Demo.world Demo.config None)
    as (_ & Hrun).
  destruct (Hrun ()) as (stamp & loss_log & _ & Hpath & _).
  - vm_compute. reflexivity.
  - exists stamp. exact Hpath.
Defined.
